(** * The JSON producer [producers/json_producer_ruiz.py]

    A shallow embedding of the producer script: the configuration
    readers, the record generator [generate_messages] and the driver
    [main], together with the part of the Python run time they rely on
    (exceptions and their class hierarchy, [try]/[except]/[finally],
    [json.dumps], [str.encode], [int]).

    Effects are explicit.  A computation is a function from a machine
    state to an outcome and a new state; the state carries the trace of
    observable events (log records, file opens, sends, sleeps, the close
    of the broker client).  Everything the script obtains from outside
    (environment, file system, broker, clock, signals) is read from a
    [world]. *)

From Stdlib Require Import ZArith QArith List String Ascii Lia Bool DecimalString.
From Stdlib Require DecimalZ.
From stdpp Require Import gmap strings.
Import ListNotations.

Open Scope Z_scope.

#[local] Set Warnings "-register-all".

(* ================================================================== *)
(** ** Python exceptions *)
(* ================================================================== *)

(** The exception classes that occur in the script or can reach it from
    the calls it makes.  [KafkaError] stands for the errors of the broker
    client library, which derive from [Exception]. *)
Inductive exc_class : Type :=
| BaseException
| Exception
| KeyboardInterrupt
| SystemExit
| OSError
| FileNotFoundError
| PermissionError
| ValueError
| JSONDecodeError
| UnicodeError
| UnicodeDecodeError
| UnicodeEncodeError
| ArithmeticError
| ZeroDivisionError
| KafkaError.

Definition exc_class_eqb (c d : exc_class) : bool :=
  match c, d with
  | BaseException, BaseException | Exception, Exception
  | KeyboardInterrupt, KeyboardInterrupt | SystemExit, SystemExit
  | OSError, OSError | FileNotFoundError, FileNotFoundError
  | PermissionError, PermissionError | ValueError, ValueError
  | JSONDecodeError, JSONDecodeError | UnicodeError, UnicodeError
  | UnicodeDecodeError, UnicodeDecodeError
  | UnicodeEncodeError, UnicodeEncodeError
  | ArithmeticError, ArithmeticError
  | ZeroDivisionError, ZeroDivisionError | KafkaError, KafkaError => true
  | _, _ => false
  end.

(** The direct base class ([__bases__]); [BaseException] is the root. *)
Definition base_class (c : exc_class) : option exc_class :=
  match c with
  | BaseException => None
  | Exception | KeyboardInterrupt | SystemExit => Some BaseException
  | OSError | ValueError | ArithmeticError | KafkaError => Some Exception
  | FileNotFoundError | PermissionError => Some OSError
  | JSONDecodeError | UnicodeError => Some ValueError
  | UnicodeDecodeError | UnicodeEncodeError => Some UnicodeError
  | ZeroDivisionError => Some ArithmeticError
  end.

(** The chain of classes from [c] up to the root.  The hierarchy above is
    four levels deep, so five steps reach the root from anywhere. *)
Fixpoint mro_upto (n : nat) (c : exc_class) : list exc_class :=
  match n with
  | O => [c]
  | S n' => c :: match base_class c with
                 | Some b => mro_upto n' b
                 | None => []
                 end
  end.

Definition mro (c : exc_class) : list exc_class := mro_upto 5 c.

Definition issubclass (c d : exc_class) : bool :=
  existsb (exc_class_eqb d) (mro c).

(** A raised exception: its class, its message, and for [SystemExit] the
    status that was passed to [sys.exit]. *)
Record exn : Type := mk_exn {
  exc_type : exc_class;
  exc_msg : string;
  exc_code : Z
}.

Definition new_exn (c : exc_class) (msg : string) : exn :=
  {| exc_type := c; exc_msg := msg; exc_code := 0 |}.

(** [sys.exit(code)] raises [SystemExit(code)]. *)
Definition system_exit (code : Z) : exn :=
  {| exc_type := SystemExit; exc_msg := EmptyString; exc_code := code |}.

Definition isinstance (e : exn) (c : exc_class) : bool :=
  issubclass (exc_type e) c.

(** What a call does: it returns a value, it raises, or it has not
    returned (a call that blocks for ever, or a loop that was given too
    little fuel to finish). *)
Inductive outcome (A : Type) : Type :=
| Return (a : A)
| Raise (e : exn)
| Pending.

Arguments Return {A} a.
Arguments Raise {A} e.
Arguments Pending {A}.

(* ================================================================== *)
(** ** Python strings, bytes and JSON values *)
(* ================================================================== *)

(** A Python [str] is a sequence of code points; a [bytes] object is a
    sequence of 8-bit integers. *)
Definition pystr : Type := list Z.
Definition pybytes : Type := list Z.

(** The code points of an ASCII literal. *)
Definition str (s : string) : pystr :=
  map (fun c => Z.of_N (N_of_ascii c)) (list_ascii_of_string s).

(** [sep.join(parts)]. *)
Fixpoint join (sep : pystr) (parts : list pystr) : pystr :=
  match parts with
  | [] => []
  | [p] => p
  | p :: ps => p ++ sep ++ join sep ps
  end.

(** The values [json.load] returns.  A float is carried by the text of its
    [float.__repr__] (["nan"], ["inf"] and ["-inf"] for the three special
    values), which is all [json.dumps] uses of it.  A [dict] keeps its
    insertion order. *)
Inductive json : Type :=
| JNull
| JBool (b : bool)
| JInt (z : Z)
| JFloat (repr : string)
| JStr (s : pystr)
| JList (l : list json)
| JDict (items : list (pystr * json)).

(** [isinstance(v, list)]. *)
Definition isinstance_list (v : json) : bool :=
  match v with
  | JList _ => true
  | _ => false
  end.

(** [int.__repr__]: the decimal digits, with a minus sign when negative. *)
Definition int_repr (z : Z) : pystr :=
  str (NilZero.string_of_int (Z.to_int z)).

(** The encoder's [floatstr]. *)
Definition floatstr (repr : string) : pystr :=
  if String.eqb repr "nan" then str "NaN"
  else if String.eqb repr "inf" then str "Infinity"
  else if String.eqb repr "-inf" then str "-Infinity"
  else str repr.

Definition hexdigit (n : Z) : Z :=
  if n <? 10 then 48 + n else 87 + n.

(** ['\\u{0:04x}'.format(n)] for [n < 0x10000]. *)
Definition u_escape (n : Z) : pystr :=
  [92; 117;
   hexdigit (Z.land (Z.shiftr n 12) 15);
   hexdigit (Z.land (Z.shiftr n 8) 15);
   hexdigit (Z.land (Z.shiftr n 4) 15);
   hexdigit (Z.land n 15)].

(** The replacement of one character in [py_encode_basestring_ascii]:
    the characters from space to tilde other than the backslash and the
    double quote stay; the short escapes of [ESCAPE_DCT] come first; the
    rest become [\uXXXX], as a surrogate pair above the basic plane. *)
Definition escape_ascii_char (c : Z) : pystr :=
  if c =? 92 then [92; 92]
  else if c =? 34 then [92; 34]
  else if (32 <=? c) && (c <=? 126) then [c]
  else if c =? 8 then [92; 98]
  else if c =? 12 then [92; 102]
  else if c =? 10 then [92; 110]
  else if c =? 13 then [92; 114]
  else if c =? 9 then [92; 116]
  else if c <? 65536 then u_escape c
  else
    let n := c - 65536 in
    let s1 := Z.lor 55296 (Z.land (Z.shiftr n 10) 1023) in
    let s2 := Z.lor 56320 (Z.land n 1023) in
    u_escape s1 ++ u_escape s2.

Definition encode_basestring_ascii (s : pystr) : pystr :=
  [34] ++ concat (map escape_ascii_char s) ++ [34].

(** [json.dumps(v)] with its defaults: [ensure_ascii=True], the item
    separator [", "] and the key separator [": "]. *)
Fixpoint json_dumps (v : json) : pystr :=
  match v with
  | JNull => str "null"
  | JBool true => str "true"
  | JBool false => str "false"
  | JInt z => int_repr z
  | JFloat r => floatstr r
  | JStr s => encode_basestring_ascii s
  | JList l => [91] ++ join (str ", ") (map json_dumps l) ++ [93]
  | JDict items =>
      [123]
      ++ join (str ", ")
           (map (fun kv => encode_basestring_ascii (fst kv)
                           ++ str ": " ++ json_dumps (snd kv)) items)
      ++ [125]
  end.

(** The UTF-8 bytes of one code point; [None] for a surrogate or a value
    outside the code space, which [str.encode] refuses. *)
Definition utf8_char (c : Z) : option pybytes :=
  if c <? 0 then None
  else if c <? 128 then Some [c]
  else if c <? 2048 then Some [192 + c / 64; 128 + c mod 64]
  else if c <? 65536 then
    if (55296 <=? c) && (c <=? 57343) then None
    else Some [224 + c / 4096; 128 + (c / 64) mod 64; 128 + c mod 64]
  else if c <? 1114112 then
    Some [240 + c / 262144; 128 + (c / 4096) mod 64;
          128 + (c / 64) mod 64; 128 + c mod 64]
  else None.

(** [s.encode("utf-8")]. *)
Fixpoint encode_utf8 (s : pystr) : outcome pybytes :=
  match s with
  | [] => Return []
  | c :: s' =>
      match utf8_char c with
      | None => Raise (new_exn UnicodeEncodeError "'utf-8' codec can't encode character")
      | Some bs =>
          match encode_utf8 s' with
          | Return rest => Return (bs ++ rest)
          | other => other
          end
      end
  end.





(** The serializer handed to the broker client in [main]:
    [lambda x: json.dumps(x).encode("utf-8")]. *)
Definition value_serializer (x : json) : outcome pybytes :=
  encode_utf8 (json_dumps x).

(* ================================================================== *)
(** ** [int(...)] on the value of an environment variable *)
(* ================================================================== *)

(** The text of an environment variable is a string of 8-bit characters;
    the digits are the ASCII digits and the blanks the ASCII blanks. *)
Definition is_space (c : ascii) : bool :=
  let n := N_of_ascii c in
  (((9 <=? n) && (n <=? 13)) || ((28 <=? n) && (n <=? 32)))%N.

Fixpoint lstrip (l : list ascii) : list ascii :=
  match l with
  | c :: l' => if is_space c then lstrip l' else l
  | [] => []
  end.

Definition strip (l : list ascii) : list ascii :=
  rev (lstrip (rev (lstrip l))).

Definition digit_value (c : ascii) : option Z :=
  let n := Z.of_N (N_of_ascii c) in
  if (48 <=? n) && (n <=? 57) then Some (n - 48) else None.

(** Decimal digits, where one underscore may stand between two digits.
    [after_digit] tells whether the previous character was a digit. *)
Fixpoint parse_digits (acc : Z) (after_digit : bool) (l : list ascii)
  : option Z :=
  match l with
  | [] => if after_digit then Some acc else None
  | c :: l' =>
      if Ascii.eqb c "_" then
        if after_digit then parse_digits acc false l' else None
      else
        match digit_value c with
        | Some d => parse_digits (10 * acc + d) true l'
        | None => None
        end
  end.

(** [int(s)] for a string [s], in base ten: blanks around, an optional
    sign, digits.  [None] is [ValueError]. *)
Definition int_of_str (s : string) : option Z :=
  match strip (list_ascii_of_string s) with
  | c :: l =>
      if Ascii.eqb c "-" then Z.opp <$> parse_digits 0 false l
      else if Ascii.eqb c "+" then parse_digits 0 false l
      else parse_digits 0 false (c :: l)
  | [] => None
  end.

(** What [os.getenv(key, default)] returns in [get_message_interval]:
    the text of the variable, or the integer default. *)
Inductive str_or_int : Type :=
| AStr (s : string)
| AnInt (z : Z).

Definition py_int (x : str_or_int) : outcome Z :=
  match x with
  | AnInt z => Return z
  | AStr s =>
      match int_of_str s with
      | Some z => Return z
      | None => Raise (new_exn ValueError "invalid literal for int() with base 10")
      end
  end.

(* ================================================================== *)
(** ** Paths *)
(* ================================================================== *)

(** A [pathlib.Path], as its components. *)
Definition path : Type := list string.

Definition parent (p : path) : path := removelast p.

Definition joinpath (p : path) (name : string) : path := p ++ [name].

(* ================================================================== *)
(** ** The world outside the script *)
(* ================================================================== *)

(** The content of a file, as far as [json.load] is concerned: the value
    it decodes to, or the exception decoding raises ([JSONDecodeError] for
    text that is not JSON). *)
Inductive file_content : Type :=
| Decodes (v : json)
| DoesNotDecode (e : exn).

(** A path on disk at some moment: nothing there, something that cannot
    be opened, or a file. *)
Inductive file_state : Type :=
| Absent
| OpenFails (e : exn)
| Present (c : file_content).

Record world : Type := mk_world {
  (** [__file__] of the module *)
  module_file : path;
  (** [os.environ], after [load_dotenv()] *)
  environ : gmap string string;
  (** [utils_producer.verify_services()] *)
  verify_services_result : outcome unit;
  (** [Path.exists()] when [main] checks *)
  exists_at_startup : path -> bool;
  (** [utils_producer.create_kafka_producer(...)]: whether the value it
      returns is truthy (a client) or falsy ([None]) *)
  create_kafka_producer_result : outcome bool;
  (** [utils_producer.create_kafka_topic(topic)] *)
  create_kafka_topic_result : string -> outcome unit;
  (** the disk at the [k]-th call of [open] *)
  disk : nat -> path -> file_state;
  (** the [i]-th call of [producer.send], once the value is serialized *)
  send_result : nat -> outcome unit;
  (** the [n]-th reading of [time.time()]; a reading is a rational
      number, and the differences and quotients the script forms of
      readings are taken exactly *)
  clock : nat -> Q;
  (** the [j]-th call of [time.sleep] with a valid argument *)
  sleep_result : nat -> outcome unit
}.

(* ================================================================== *)
(** ** Observable events and the machine state *)
(* ================================================================== *)

Inductive level : Type := Info | Warning | Error.

(** The log records of the script, by their format string. *)
Inductive message : Type :=
| MsgStart
| MsgTopic (topic : string)
| MsgInterval (interval : Z)
| MsgFileNotFound (file_path : path)
| MsgInvalidJSON (file_path : path) (e : exn)
| MsgUnexpected (e : exn)
| MsgDataFileNotFound (p : path)
| MsgProducerFailed
| MsgTopicFailed (topic : string) (e : exn)
| MsgStarting (topic : string)
| MsgSent (message_count : Z) (topic : string) (latency : Q) (message_dict : json)
| MsgThroughput (message_count : Z) (elapsed_time throughput : Q)
| MsgInterrupted
| MsgProductionError (e : exn)
| MsgClosed
| MsgEnd.

Inductive event : Type :=
| Log (lvl : level) (m : message)
| Open (p : path)
| SendCall (topic : string) (value : json)
| Transmit (topic : string) (payload : pybytes)
| Sleep (secs : Z)
| Close.

(** The trace holds the newest event first; the counters number the calls
    made so far to [open], [producer.send], [time.time] and [time.sleep]. *)
Record state : Type := mk_state {
  trace : list event;
  n_open : nat;
  n_send : nat;
  n_time : nat;
  n_sleep : nat
}.

Definition initial_state : state :=
  {| trace := []; n_open := O; n_send := O; n_time := O; n_sleep := O |}.

(** The events in the order they happened. *)
Definition events (st : state) : list event := rev (trace st).

(* ================================================================== *)
(** ** Computations *)
(* ================================================================== *)

Definition M (A : Type) : Type := state -> outcome A * state.

Definition ret {A} (a : A) : M A := fun st => (Return a, st).

Definition bind {A B} (m : M A) (k : A -> M B) : M B :=
  fun st =>
    match m st with
    | (Return a, st') => k a st'
    | (Raise e, st') => (Raise e, st')
    | (Pending, st') => (Pending, st')
    end.

Declare Scope py_scope.
Delimit Scope py_scope with py.
Notation "x <- m ;; k" := (bind m (fun x => k))
  (at level 100, m at next level, right associativity) : py_scope.
Notation "m ;; k" := (bind m (fun _ => k))
  (at level 100, right associativity) : py_scope.
Open Scope py_scope.

Definition raise {A} (e : exn) : M A := fun st => (Raise e, st).

Definition pending {A} : M A := fun st => (Pending, st).

(** The result of a call to the outside. *)
Definition lift {A} (o : outcome A) : M A := fun st => (o, st).

Definition emit (ev : event) : M unit :=
  fun st =>
    (Return tt,
     {| trace := ev :: trace st; n_open := n_open st; n_send := n_send st;
        n_time := n_time st; n_sleep := n_sleep st |}).

Definition log (lvl : level) (m : message) : M unit := emit (Log lvl m).

Definition sys_exit {A} (code : Z) : M A := raise (system_exit code).

(** The first [except] clause whose class the exception is an instance
    of. *)
Fixpoint find_handler {A} (clauses : list (exc_class * (exn -> M A))) (e : exn)
  : option (exn -> M A) :=
  match clauses with
  | [] => None
  | (c, h) :: rest => if isinstance e c then Some h else find_handler rest e
  end.

(** [try: body / except c1 as e: h1 / except c2 as e: h2 ...]. *)
Definition try_except {A} (body : M A) (clauses : list (exc_class * (exn -> M A)))
  : M A :=
  fun st =>
    match body st with
    | (Raise e, st') =>
        match find_handler clauses e with
        | Some h => h e st'
        | None => (Raise e, st')
        end
    | r => r
    end.

(** [try: body / finally: cleanup].  The cleanup runs when the body has
    returned or raised; an exception of the cleanup replaces the body's. *)
Definition try_finally {A} (body : M A) (cleanup : M unit) : M A :=
  fun st =>
    match body st with
    | (Pending, st') => (Pending, st')
    | (r, st') =>
        match cleanup st' with
        | (Return _, st'') => (r, st'')
        | (Raise e, st'') => (Raise e, st'')
        | (Pending, st'') => (Pending, st'')
        end
    end.

(* ================================================================== *)
(** ** Calls to the outside *)
(* ================================================================== *)

Definition next_open : M nat :=
  fun st =>
    (Return (n_open st),
     {| trace := trace st; n_open := S (n_open st); n_send := n_send st;
        n_time := n_time st; n_sleep := n_sleep st |}).

Definition next_send : M nat :=
  fun st =>
    (Return (n_send st),
     {| trace := trace st; n_open := n_open st; n_send := S (n_send st);
        n_time := n_time st; n_sleep := n_sleep st |}).

Definition next_time : M nat :=
  fun st =>
    (Return (n_time st),
     {| trace := trace st; n_open := n_open st; n_send := n_send st;
        n_time := S (n_time st); n_sleep := n_sleep st |}).

Definition next_sleep : M nat :=
  fun st =>
    (Return (n_sleep st),
     {| trace := trace st; n_open := n_open st; n_send := n_send st;
        n_time := n_time st; n_sleep := S (n_sleep st) |}).

(** [open(p, "r")]. *)
Definition open_ (w : world) (p : path) : M file_content :=
  k <- next_open ;;
  emit (Open p) ;;
  match disk w k p with
  | Absent => raise (new_exn FileNotFoundError "No such file or directory")
  | OpenFails e => raise e
  | Present c => ret c
  end.

(** [json.load(f)]. *)
Definition json_load (f : file_content) : M json :=
  match f with
  | Decodes v => ret v
  | DoesNotDecode e => raise e
  end.

(** [time.time()]. *)
Definition time_time (w : world) : M Q :=
  n <- next_time ;;
  ret (clock w n).

(** [time.sleep(secs)]: a negative length is refused. *)
Definition time_sleep (w : world) (secs : Z) : M unit :=
  if secs <? 0 then raise (new_exn ValueError "sleep length must be non-negative")
  else
    j <- next_sleep ;;
    emit (Sleep secs) ;;
    lift (sleep_result w j).

(** [a / b] for an integer and a float. *)
Definition truediv (a : Z) (b : Q) : M Q :=
  if Qeq_bool b 0 then raise (new_exn ZeroDivisionError "float division by zero")
  else ret (inject_Z a / b)%Q.

(** The broker client: it keeps the serializer it was created with. *)
Record producer : Type := mk_producer {
  serializer : json -> outcome pybytes
}.

(** [create_kafka_producer(value_serializer=f)]. *)
Definition create_kafka_producer (w : world) (f : json -> outcome pybytes)
  : M (option producer) :=
  ok <- lift (create_kafka_producer_result w) ;;
  ret (if ok : bool then Some {| serializer := f |} else None).

(** [producer.send(topic, value=v)]: the value is serialized, then handed
    to the broker. *)
Definition producer_send (w : world) (p : producer) (topic : string) (v : json)
  : M unit :=
  i <- next_send ;;
  emit (SendCall topic v) ;;
  payload <- lift (serializer p v) ;;
  emit (Transmit topic payload) ;;
  lift (send_result w i).

(** [producer.close()]. *)
Definition producer_close (p : producer) : M unit := emit Close.

Definition verify_services (w : world) : M unit :=
  lift (verify_services_result w).

Definition create_kafka_topic (w : world) (topic : string) : M unit :=
  lift (create_kafka_topic_result w topic).

(* ================================================================== *)
(** ** The script *)
(* ================================================================== *)

(** <<
    def get_kafka_topic() -> str:
        topic = os.getenv("BUZZ_TOPIC", "unknown_topic")
        logger.info(f"Kafka topic: {topic}")
        return topic
    >> *)
Definition get_kafka_topic (w : world) : M string :=
  let topic := default "unknown_topic" (environ w !! "BUZZ_TOPIC") in
  log Info (MsgTopic topic) ;;
  ret topic.

(** <<
    def get_message_interval() -> int:
        interval = int(os.getenv("BUZZ_INTERVAL_SECONDS", 1))
        logger.info(f"Message interval: {interval} seconds")
        return interval
    >> *)
Definition get_message_interval (w : world) : M Z :=
  interval <- lift (py_int (match environ w !! "BUZZ_INTERVAL_SECONDS" with
                            | Some s => AStr s
                            | None => AnInt 1
                            end)) ;;
  log Info (MsgInterval interval) ;;
  ret interval.

(** <<
    PROJECT_ROOT = pathlib.Path(__file__).parent.parent
    DATA_FOLDER = PROJECT_ROOT.joinpath("data")
    DATA_FILE = DATA_FOLDER.joinpath("buzz.json")
    >> *)
Definition PROJECT_ROOT (w : world) : path := parent (parent (module_file w)).
Definition DATA_FOLDER (w : world) : path := joinpath (PROJECT_ROOT w) "data".
Definition DATA_FILE (w : world) : path := joinpath (DATA_FOLDER w) "buzz.json".

(** One turn of the [while True] loop of [generate_messages], up to the
    [for] loop: the file is opened and decoded, the root is checked, and
    the three [except] clauses turn a failure into [sys.exit].  The result
    is the list the [for] loop is about to go through.
    <<
        try:
            with open(DATA_FILE, "r") as json_file:
                json_data: list = json.load(json_file)
                if not isinstance(json_data, list):
                    raise ValueError(...)
                for buzz_entry in json_data: ...
        except FileNotFoundError:
            logger.error(f"File not found: {file_path}. Exiting.")
            sys.exit(1)
        except json.JSONDecodeError as e:
            logger.error(f"Invalid JSON format in file: {file_path}. Error: {e}")
            sys.exit(2)
        except Exception as e:
            logger.error(f"Unexpected error in message generation: {e}")
            sys.exit(3)
    >> *)
Definition generate_messages_load (w : world) (file_path : path)
  : M (list json) :=
  try_except
    (json_file <- open_ w (DATA_FILE w) ;;
     json_data <- json_load json_file ;;
     match json_data with
     | JList l => ret l
     | _ => raise (new_exn ValueError "Expected a list of JSON objects")
     end)
    [ (FileNotFoundError,
        fun _ => log Error (MsgFileNotFound file_path) ;; sys_exit 1);
      (JSONDecodeError,
        fun e => log Error (MsgInvalidJSON file_path e) ;; sys_exit 2);
      (Exception,
        fun e => log Error (MsgUnexpected e) ;; sys_exit 3) ].

(** The generator object of [generate_messages(file_path)] is, between
    two calls of [next], the list of entries of the current pass that are
    still to be yielded; a fresh generator has none. *)
Definition generator : Type := list json.

Definition new_generator : generator := [].

(** [next(g)]: the next entry of the current pass or, when the pass is
    over, the first entry of the next pass that has one.  Each pass opens
    the file again; [fuel] bounds the number of passes tried. *)
Fixpoint generate_messages_next (w : world) (file_path : path) (fuel : nat)
  (g : generator) : M (json * generator) :=
  match g with
  | buzz_entry :: rest => ret (buzz_entry, rest)
  | [] =>
      match fuel with
      | O => pending
      | S fuel' =>
          json_data <- generate_messages_load w file_path ;;
          generate_messages_next w file_path fuel' json_data
      end
  end.

(** The [for] loop of [main]; [fuel] bounds the number of iterations and
    the number of passes the generator tries in one [next].
    <<
        for message_dict in generate_messages(DATA_FILE):
            msg_start_time = time.time()
            producer.send(topic, value=message_dict)
            msg_end_time = time.time()
            message_count += 1
            latency = msg_end_time - msg_start_time
            logger.info(f"Sent message {message_count} ...")
            if message_count % 10 == 0:
                elapsed_time = msg_end_time - start_time
                throughput = message_count / elapsed_time
                logger.info(f"Processed {message_count} messages ...")
            time.sleep(interval_secs)
    >> *)
Fixpoint for_messages (w : world) (gfuel fuel : nat) (p : producer)
  (topic : string) (interval_secs : Z) (start_time : Q)
  (g : generator) (message_count : Z) : M unit :=
  match fuel with
  | O => pending
  | S fuel' =>
      yielded <- generate_messages_next w (DATA_FILE w) gfuel g ;;
      let '(message_dict, g') := yielded in
      msg_start_time <- time_time w ;;
      producer_send w p topic message_dict ;;
      msg_end_time <- time_time w ;;
      let message_count := message_count + 1 in
      let latency := (msg_end_time - msg_start_time)%Q in
      log Info (MsgSent message_count topic latency message_dict) ;;
      (if message_count mod 10 =? 0 then
         let elapsed_time := (msg_end_time - start_time)%Q in
         throughput <- truediv message_count elapsed_time ;;
         log Info (MsgThroughput message_count elapsed_time throughput)
       else ret tt) ;;
      time_sleep w interval_secs ;;
      for_messages w gfuel fuel' p topic interval_secs start_time g' message_count
  end.

(** The last part of [main]: the streaming loop with its handlers and
    the release of the client.
    <<
        try:
            for ...
        except KeyboardInterrupt:
            logger.warning("Producer interrupted by user.")
        except Exception as e:
            logger.error(f"Error during message production: {e}")
        finally:
            producer.close()
            logger.info("Kafka producer closed.")
        logger.info("END producer.")
    >> *)
Definition stream (w : world) (fuel : nat) (p : producer) (topic : string)
  (interval_secs : Z) (start_time : Q) : M unit :=
  try_finally
    (try_except
       (for_messages w fuel fuel p topic interval_secs start_time new_generator 0)
       [ (KeyboardInterrupt, fun _ => log Warning MsgInterrupted);
         (Exception, fun e => log Error (MsgProductionError e)) ])
    (producer_close p ;;
     log Info MsgClosed) ;;
  log Info MsgEnd.

(** [main()]. *)
Definition main (w : world) (fuel : nat) : M unit :=
  log Info MsgStart ;;
  verify_services w ;;
  topic <- get_kafka_topic w ;;
  interval_secs <- get_message_interval w ;;
  (if negb (exists_at_startup w (DATA_FILE w)) then
     log Error (MsgDataFileNotFound (DATA_FILE w)) ;;
     sys_exit 1
   else ret tt) ;;
  producer <- create_kafka_producer w value_serializer ;;
  match producer with
  | None =>
      log Error MsgProducerFailed ;;
      sys_exit 3
  | Some producer =>
      try_except (create_kafka_topic w topic)
        [ (Exception,
            fun e => log Error (MsgTopicFailed topic e) ;; sys_exit 1) ] ;;
      log Info (MsgStarting topic) ;;
      start_time <- time_time w ;;
      stream w fuel producer topic interval_secs start_time
  end.

(** The exit status of the process, from the way [main()] ends at the
    top level: [0] after a return, the argument of an uncaught
    [sys.exit], [130] after an uncaught [KeyboardInterrupt] and [1] after
    any other uncaught exception.  There is none while it runs. *)
Definition exit_status (o : outcome unit) : option Z :=
  match o with
  | Return _ => Some 0
  | Raise e =>
      if isinstance e SystemExit then Some (exc_code e)
      else if isinstance e KeyboardInterrupt then Some 130
      else Some 1
  | Pending => None
  end.

(** One run of the script with the given fuel. *)
Definition run (w : world) (fuel : nat) : outcome unit * state :=
  main w fuel initial_state.

(* ================================================================== *)
(** ** Vocabulary of the statements *)
(* ================================================================== *)

(** [n] calls of [next] in a row: the entries they yield and the
    generator that is left. *)
Fixpoint take_messages (w : world) (file_path : path) (fuel n : nat)
  (g : generator) : M (list json * generator) :=
  match n with
  | O => ret ([], g)
  | S n' =>
      yielded <- generate_messages_next w file_path fuel g ;;
      let '(x, g1) := yielded in
      more <- take_messages w file_path fuel n' g1 ;;
      let '(xs, g2) := more in
      ret (x :: xs, g2)
  end.

(** The state after one more [open] of the data file, and after [k]. *)
Definition after_open (w : world) (st : state) : state :=
  {| trace := Open (DATA_FILE w) :: trace st; n_open := S (n_open st);
     n_send := n_send st; n_time := n_time st; n_sleep := n_sleep st |}.

Fixpoint after_opens (w : world) (k : nat) (st : state) : state :=
  match k with
  | O => st
  | S k' => after_opens w k' (after_open w st)
  end.

(** The state after some more events, the newest first. *)
Definition after_events (evs : list event) (st : state) : state :=
  {| trace := evs ++ trace st; n_open := n_open st; n_send := n_send st;
     n_time := n_time st; n_sleep := n_sleep st |}.

Definition is_close (ev : event) : bool :=
  match ev with Close => true | _ => false end.

Definition is_send_call (ev : event) : bool :=
  match ev with SendCall _ _ => true | _ => false end.

Definition is_open (ev : event) : bool :=
  match ev with Open _ => true | _ => false end.

Fixpoint count (f : event -> bool) (l : list event) : nat :=
  match l with
  | [] => O
  | ev :: l' => if f ev then S (count f l') else count f l'
  end.

(** The four ways in which reading the data file fails, in the words of
    the specification of the record source. *)
Inductive failure_mode : Type :=
| FileMissing
| NotParseable
| RootNotSequence
| OtherFailure.

(** The failure mode a state of the data file leads to, if any: a missing
    file; a file whose decoding raises [JSONDecodeError]; a file that
    decodes to something that is not a list; an error of opening or of
    decoding that is an [Exception] of another kind. *)
Definition failure_mode_of (s : file_state) : option failure_mode :=
  match s with
  | Absent => Some FileMissing
  | Present (Decodes v) => if isinstance_list v then None else Some RootNotSequence
  | Present (DoesNotDecode e) =>
      if isinstance e FileNotFoundError then None
      else if isinstance e JSONDecodeError then Some NotParseable
      else if isinstance e Exception then Some OtherFailure
      else None
  | OpenFails e =>
      if isinstance e FileNotFoundError then None
      else if isinstance e JSONDecodeError then None
      else if isinstance e Exception then Some OtherFailure
      else None
  end.

(** The status with which the generator ends the process in each mode. *)
Definition failure_status (m : failure_mode) : Z :=
  match m with
  | FileMissing => 1
  | NotParseable => 2
  | RootNotSequence => 3
  | OtherFailure => 3
  end.

(** The report of the generator, with the path it names replaced. *)
Definition retarget (p : path) (ev : event) : event :=
  match ev with
  | Log lvl (MsgFileNotFound _) => Log lvl (MsgFileNotFound p)
  | Log lvl (MsgInvalidJSON _ e) => Log lvl (MsgInvalidJSON p e)
  | _ => ev
  end.

(** The value [get_message_interval] converts. *)
Definition interval_setting (w : world) : str_or_int :=
  match environ w !! "BUZZ_INTERVAL_SECONDS" with
  | Some s => AStr s
  | None => AnInt 1
  end.

Definition topic_setting (w : world) : string :=
  default "unknown_topic" (environ w !! "BUZZ_TOPIC").

(** The start-up of [main] gets as far as the streaming loop, with the
    given topic and interval: the services are there, the interval is an
    integer, the data file exists, a client is obtained and the topic is
    assured. *)
Definition reaches_streaming (w : world) (topic : string) (interval_secs : Z)
  : Prop :=
  verify_services_result w = Return tt
  /\ topic = topic_setting w
  /\ py_int (interval_setting w) = Return interval_secs
  /\ exists_at_startup w (DATA_FILE w) = true
  /\ create_kafka_producer_result w = Return true
  /\ create_kafka_topic_result w topic = Return tt.

(** The state in which the streaming loop is entered. *)
Definition streaming_state (topic : string) (interval_secs : Z) : state :=
  {| trace := [Log Info (MsgStarting topic); Log Info (MsgInterval interval_secs);
               Log Info (MsgTopic topic); Log Info MsgStart];
     n_open := O; n_send := O; n_time := 1%nat; n_sleep := O |}.

(** The client [main] works with. *)
Definition the_producer : producer := {| serializer := value_serializer |}.

(** *** Sample worlds *)

Definition record (n : Z) : json := JDict [(str "id", JInt n)].

(** A healthy installation: three records in the data file, an interval
    of zero, a broker that accepts everything and a clock that advances by
    one second per reading. *)
Definition sample_world : world :=
  {| module_file := ["repo"; "producers"; "json_producer_ruiz.py"];
     environ := <["BUZZ_INTERVAL_SECONDS" := "0"]> ∅;
     verify_services_result := Return tt;
     exists_at_startup := fun _ => true;
     create_kafka_producer_result := Return true;
     create_kafka_topic_result := fun _ => Return tt;
     disk := fun _ _ => Present (Decodes (JList [record 1; record 2; record 3]));
     send_result := fun _ => Return tt;
     clock := fun n => inject_Z (Z.of_nat n);
     sleep_result := fun _ => Return tt |}.


Definition with_disk (d : nat -> path -> file_state) (w : world) : world :=
  {| module_file := module_file w; environ := environ w;
     verify_services_result := verify_services_result w;
     exists_at_startup := exists_at_startup w;
     create_kafka_producer_result := create_kafka_producer_result w;
     create_kafka_topic_result := create_kafka_topic_result w;
     disk := d; send_result := send_result w; clock := clock w;
     sleep_result := sleep_result w |}.

Definition with_exists (ex : path -> bool) (w : world) : world :=
  {| module_file := module_file w; environ := environ w;
     verify_services_result := verify_services_result w;
     exists_at_startup := ex;
     create_kafka_producer_result := create_kafka_producer_result w;
     create_kafka_topic_result := create_kafka_topic_result w;
     disk := disk w; send_result := send_result w; clock := clock w;
     sleep_result := sleep_result w |}.

Definition with_send (s : nat -> outcome unit) (w : world) : world :=
  {| module_file := module_file w; environ := environ w;
     verify_services_result := verify_services_result w;
     exists_at_startup := exists_at_startup w;
     create_kafka_producer_result := create_kafka_producer_result w;
     create_kafka_topic_result := create_kafka_topic_result w;
     disk := disk w; send_result := s; clock := clock w;
     sleep_result := sleep_result w |}.

(** The data file holds a single object instead of a list. *)
Definition object_world : world :=
  with_disk (fun _ _ => Present (Decodes (record 1))) sample_world.

(** The data file cannot be read by this user. *)
Definition denied_world : world :=
  with_disk (fun _ _ => OpenFails (new_exn PermissionError "Permission denied"))
    sample_world.

(** The data file is there for the first pass and gone afterwards. *)
Definition vanishing_world : world :=
  with_disk (fun k _ => match k with
                        | O => Present (Decodes (JList [record 1; record 2; record 3]))
                        | S _ => Absent
                        end)
    sample_world.

(** The data file holds the empty list. *)
Definition empty_world : world :=
  with_disk (fun _ _ => Present (Decodes (JList []))) sample_world.

(** The data file is not there. *)
Definition missing_world : world :=
  with_exists (fun _ => false) (with_disk (fun _ _ => Absent) sample_world).


(** The user interrupts the fifth send. *)
Definition interrupted_world : world :=
  with_send (fun i => if (i <? 4)%nat then Return tt
                      else Raise (new_exn KeyboardInterrupt "KeyboardInterrupt"))
    sample_world.

(** The broker refuses the second send. *)
Definition refused_world : world :=
  with_send (fun i => if (i <? 1)%nat then Return tt
                      else Raise (new_exn KafkaError "KafkaTimeoutError"))
    sample_world.

(** The exception with which the body of the [try] in [generate_messages]
    ends for a state of the data file, if it does. *)
Definition load_exception (s : file_state) : option exn :=
  match s with
  | Absent => Some (new_exn FileNotFoundError "No such file or directory")
  | OpenFails e => Some e
  | Present (DoesNotDecode e) => Some e
  | Present (Decodes (JList _)) => None
  | Present (Decodes _) => Some (new_exn ValueError "Expected a list of JSON objects")
  end.

(** Two states that differ at most in the path that the reports of the
    generator name. *)
Definition same_but_reports (st1 st2 : state) : Prop :=
  map (retarget []) (trace st1) = map (retarget []) (trace st2)
  /\ n_open st1 = n_open st2 /\ n_send st1 = n_send st2
  /\ n_time st1 = n_time st2 /\ n_sleep st1 = n_sleep st2.

(** The three reports of the generator. *)
Definition source_report (m : message) : Prop :=
  match m with
  | MsgFileNotFound _ | MsgInvalidJSON _ _ | MsgUnexpected _ => True
  | _ => False
  end.

(** An event that is neither the release of the client nor one of the two
    progress reports of the loop. *)
Definition quiet (ev : event) : Prop :=
  match ev with
  | Close => False
  | Log _ (MsgSent _ _ _ _) => False
  | Log _ (MsgThroughput _ _ _) => False
  | Log _ _ => True
  | _ => True
  end.

(** A computation that does not read the clock and is quiet. *)
Definition steady {A} (m : M A) : Prop :=
  forall st : state,
    n_time (snd (m st)) = n_time st
    /\ exists evs, trace (snd (m st)) = evs ++ trace st /\ Forall quiet evs.

(** The clock reading after the send of message number [c], when the loop
    was entered with [c0] messages counted and [n0] readings taken: each
    iteration reads the clock before and after its send. *)
Definition end_time (w : world) (n0 : nat) (c0 c : Z) : Q :=
  clock w (n0 + 2 * Z.to_nat (c - c0) - 1)%nat.

(** In a run of [main] the loop starts from zero, after one reading. *)
Definition elapsed_time (w : world) (c : Z) : Q :=
  (end_time w 1 0 c - clock w 0)%Q.

(** What the events of the streaming loop look like, for the events [evs]
    that a loop adds when it is entered with [c0] messages counted and
    [n0] clock readings taken: the client is not released; the messages
    are counted from [c0 + 1]; a throughput report carries a multiple of
    ten, the time since [start_time] and their quotient; and it is there
    for every multiple of ten that was counted, when the clock has moved. *)
Definition progress_ok (w : world) (start_time : Q) (n0 : nat) (c0 : Z)
  (evs : list event) : Prop :=
  Forall (fun ev => is_close ev = false) evs
  /\ (forall lvl c t lat m, In (Log lvl (MsgSent c t lat m)) evs -> c0 < c)
  /\ (forall lvl c e thr,
        In (Log lvl (MsgThroughput c e thr)) evs ->
        c0 < c /\ c mod 10 = 0
        /\ e = (end_time w n0 c0 c - start_time)%Q
        /\ ~ (e == 0)%Q
        /\ thr = (inject_Z c / e)%Q)
  /\ (forall lvl c t lat m,
        In (Log lvl (MsgSent c t lat m)) evs ->
        c mod 10 = 0 ->
        ~ (end_time w n0 c0 c - start_time == 0)%Q ->
        In (Log Info (MsgThroughput c (end_time w n0 c0 c - start_time)
                        (inject_Z c / (end_time w n0 c0 c - start_time))))
           evs).

(** The state after one more reading of the clock. *)
Definition after_time (st : state) : state :=
  {| trace := trace st; n_open := n_open st; n_send := n_send st;
     n_time := S (n_time st); n_sleep := n_sleep st |}.

(** The two progress reports of the loop. *)
Definition is_progress_report (ev : event) : bool :=
  match ev with
  | Log _ (MsgSent _ _ _ _) | Log _ (MsgThroughput _ _ _) => true
  | _ => false
  end.

(** Induction on a JSON value, with the hypothesis for every entry of a
    list and every value of a dict. *)
Section json_induction.
Variable P : json -> Prop.
Hypothesis Hnull : P JNull.
Hypothesis Hbool : forall b, P (JBool b).
Hypothesis Hint : forall z, P (JInt z).
Hypothesis Hfloat : forall r, P (JFloat r).
Hypothesis Hstr : forall s, P (JStr s).
Hypothesis Hlist : forall l, Forall P l -> P (JList l).
Hypothesis Hdict : forall items, Forall (fun kv => P (snd kv)) items -> P (JDict items).

Fixpoint json_nested_ind (v : json) : P v :=
  match v with
  | JNull => Hnull
  | JBool b => Hbool b
  | JInt z => Hint z
  | JFloat r => Hfloat r
  | JStr s => Hstr s
  | JList l =>
      Hlist l ((fix go (l : list json) : Forall P l :=
                  match l with
                  | [] => @List.Forall_nil _ P
                  | x :: r => @List.Forall_cons _ P x r (json_nested_ind x) (go r)
                  end) l)
  | JDict items =>
      Hdict items
        ((fix go (l : list (pystr * json)) : Forall (fun kv => P (snd kv)) l :=
            match l with
            | [] => @List.Forall_nil _ _
            | kv :: r => @List.Forall_cons _ (fun kv => P (snd kv)) kv r (json_nested_ind (snd kv)) (go r)
            end) items)
  end.
End json_induction.



(* ================================================================== *)
(** ** Vocabulary of the further properties *)
(* ================================================================== *)

Definition is_sleep (ev : event) : bool :=
  match ev with Sleep _ => true | _ => false end.

Definition is_sent_report (ev : event) : bool :=
  match ev with Log _ (MsgSent _ _ _ _) => true | _ => false end.










Definition with_producer (r : outcome bool) (w : world) : world :=
  {| module_file := module_file w; environ := environ w;
     verify_services_result := verify_services_result w;
     exists_at_startup := exists_at_startup w;
     create_kafka_producer_result := r;
     create_kafka_topic_result := create_kafka_topic_result w;
     disk := disk w; send_result := send_result w; clock := clock w;
     sleep_result := sleep_result w |}.

Definition with_topic (r : string -> outcome unit) (w : world) : world :=
  {| module_file := module_file w; environ := environ w;
     verify_services_result := verify_services_result w;
     exists_at_startup := exists_at_startup w;
     create_kafka_producer_result := create_kafka_producer_result w;
     create_kafka_topic_result := r;
     disk := disk w; send_result := send_result w; clock := clock w;
     sleep_result := sleep_result w |}.

(** No client can be obtained. *)
Definition no_client_world : world := with_producer (Return false) sample_world.

(** The topic cannot be created. *)
Definition no_topic_world : world :=
  with_topic (fun _ => Raise (new_exn KafkaError "TopicAuthorizationFailedError"))
    sample_world.


(** A file that grows by one record from pass to pass. *)
Definition growing_world : world :=
  with_disk (fun k _ => Present (Decodes (JList (map (fun i => record (Z.of_nat i))
                                                     (seq 0 (S k))))))
    sample_world.


(** The data file is empty for two passes and then holds a record. *)
Definition filling_world : world :=
  with_disk (fun k _ => if (k <? 2)%nat then Present (Decodes (JList []))
                        else Present (Decodes (JList [record 9])))
    sample_world.


(** A printable ASCII character. *)
Definition printable (c : Z) : Prop := 32 <= c <= 126.

Definition printable_char (a : ascii) : bool :=
  let n := Z.of_N (N_of_ascii a) in (32 <=? n) && (n <=? 126).

(** A JSON value whose floats are written in printable ASCII, as the
    floats of Python are. *)
Fixpoint plain (v : json) : bool :=
  match v with
  | JFloat r => forallb printable_char (list_ascii_of_string r)
  | JList l => forallb plain l
  | JDict items => forallb (fun kv => plain (snd kv)) items
  | _ => true
  end.





(** What the events [evs] of the loop say about its accounting, for a
    loop entered with [c0] messages counted and [n0] clock readings
    taken: a report of a sent message carries a count above [c0], the
    topic, and as latency the difference of the two readings around its
    send; no sleep without a report before it, no report without a send,
    and no second send without a sleep in between. *)
Definition accounting_ok (w : world) (topic : string) (n0 : nat) (c0 : Z)
  (evs : list event) : Prop :=
  (forall lvl c t lat m,
      In (Log lvl (MsgSent c t lat m)) evs ->
      c0 < c /\ lvl = Info /\ t = topic
      /\ lat = (clock w (n0 + 2 * Z.to_nat (c - c0) - 1)
                - clock w (n0 + 2 * Z.to_nat (c - c0) - 2))%Q)
  /\ (count is_sleep evs <= count is_sent_report evs)%nat
  /\ (count is_sent_report evs <= count is_send_call evs)%nat
  /\ (count is_send_call evs <= count is_sleep evs + 1)%nat.

(* ================================================================== *)
(** ** Facts about the run time *)
(* ================================================================== *)















(* ================================================================== *)
(** ** The record generator *)
(* ================================================================== *)

Lemma after_opens_S (w : world) (k : nat) (st : state) :
  after_opens w (S k) st = after_open w (after_opens w k st).
Proof.
  revert st. induction k as [|k IH]; intros st; [reflexivity|].
  change (after_opens w (S (S k)) st) with (after_opens w (S k) (after_open w st)).
  rewrite IH. reflexivity.
Qed.

Lemma n_open_after_opens (w : world) (k : nat) (st : state) :
  n_open (after_opens w k st) = (n_open st + k)%nat.
Proof.
  revert st. induction k as [|k IH]; intros st; simpl; [lia|].
  rewrite IH. simpl. lia.
Qed.

Lemma trace_after_opens (w : world) (k : nat) (st : state) :
  trace (after_opens w k st) = repeat (Open (DATA_FILE w)) k ++ trace st.
Proof.
  induction k as [|k IH]; [reflexivity|].
  rewrite after_opens_S. simpl. rewrite IH. reflexivity.
Qed.

(** A pass over a file that holds a list. *)
Lemma load_list (w : world) (file_path : path) (st : state) (l : list json) :
  disk w (n_open st) (DATA_FILE w) = Present (Decodes (JList l)) ->
  generate_messages_load w file_path st = (Return l, after_open w st).
Proof.
  intros H.
  unfold generate_messages_load, try_except, open_, bind, next_open, emit.
  simpl. rewrite H. reflexivity.
Qed.

(** A pass that fails: the first clause that matches decides. *)
Lemma load_raises (w : world) (file_path : path) (st : state) (e : exn) :
  load_exception (disk w (n_open st) (DATA_FILE w)) = Some e ->
  generate_messages_load w file_path st =
    if isinstance e FileNotFoundError then
      (Raise (system_exit 1),
       after_events [Log Error (MsgFileNotFound file_path)] (after_open w st))
    else if isinstance e JSONDecodeError then
      (Raise (system_exit 2),
       after_events [Log Error (MsgInvalidJSON file_path e)] (after_open w st))
    else if isinstance e Exception then
      (Raise (system_exit 3),
       after_events [Log Error (MsgUnexpected e)] (after_open w st))
    else (Raise e, after_open w st).
Proof.
  intros H.
  unfold generate_messages_load, try_except, open_, bind, next_open, emit.
  simpl.
  destruct (disk w (n_open st) (DATA_FILE w)) as [|e'|[v|e']]; simpl in H.
  - injection H as <-. reflexivity.
  - injection H as <-. simpl.
    destruct (isinstance e' FileNotFoundError); [reflexivity|].
    destruct (isinstance e' JSONDecodeError); [reflexivity|].
    destruct (isinstance e' Exception); reflexivity.
  - destruct v; try discriminate; injection H as <-; reflexivity.
  - injection H as <-. simpl.
    destruct (isinstance e' FileNotFoundError); [reflexivity|].
    destruct (isinstance e' JSONDecodeError); [reflexivity|].
    destruct (isinstance e' Exception); reflexivity.
Qed.

Lemma load_cases (s : file_state) :
  (exists l, s = Present (Decodes (JList l)) /\ load_exception s = None)
  \/ (exists e, load_exception s = Some e).
Proof.
  destruct s as [|e|[v|e]]; simpl; eauto.
  destruct v; eauto.
Qed.

(** A generator that still holds entries yields the first. *)
Lemma next_held (w : world) (file_path : path) (fuel : nat)
  (x : json) (rest : generator) (st : state) :
  generate_messages_next w file_path fuel (x :: rest) st = (Return (x, rest), st).
Proof. destruct fuel; reflexivity. Qed.

(** A generator that holds none makes a pass. *)
Lemma next_fresh (w : world) (file_path : path) (fuel : nat) (st : state) :
  generate_messages_next w file_path (S fuel) [] st =
    match generate_messages_load w file_path st with
    | (Return l, st') => generate_messages_next w file_path fuel l st'
    | (Raise e, st') => (Raise e, st')
    | (Pending, st') => (Pending, st')
    end.
Proof. reflexivity. Qed.

Lemma take_held (w : world) (file_path : path) (fuel : nat) :
  forall (i : nat) (g : generator) (st : state),
    (i <= length g)%nat ->
    take_messages w file_path fuel i g st = (Return (firstn i g, skipn i g), st).
Proof.
  induction i as [|i IH]; intros g st Hi; [reflexivity|].
  destruct g as [|x rest]; [simpl in Hi; lia|].
  cbn [take_messages]. unfold bind at 1. rewrite next_held.
  unfold bind. rewrite IH by (simpl in Hi; lia). reflexivity.
Qed.

Lemma take_app (w : world) (file_path : path) (fuel : nat) :
  forall (a b : nat) (g : generator) (st : state),
    take_messages w file_path fuel (a + b) g st =
      match take_messages w file_path fuel a g st with
      | (Return (xs, g1), st1) =>
          match take_messages w file_path fuel b g1 st1 with
          | (Return (ys, g2), st2) => (Return (xs ++ ys, g2), st2)
          | (Raise e, st2) => (Raise e, st2)
          | (Pending, st2) => (Pending, st2)
          end
      | (Raise e, st1) => (Raise e, st1)
      | (Pending, st1) => (Pending, st1)
      end.
Proof.
  induction a as [|a IH]; intros b g st.
  - simpl. destruct (take_messages w file_path fuel b g st) as [[[ys g2]| |] st2];
      reflexivity.
  - cbn [Nat.add take_messages]. unfold bind at 1 3.
    destruct (generate_messages_next w file_path fuel g st) as [[[x g1]| |] st1];
      try reflexivity.
    unfold bind. rewrite IH.
    destruct (take_messages w file_path fuel a g1 st1) as [[[xs g2]| |] st2];
      try reflexivity.
    unfold ret. cbn beta iota.
    destruct (take_messages w file_path fuel b g2 st2) as [[[ys g3]| |] st3];
      reflexivity.
Qed.

Section stable_file.
Variable w : world.
Variable l : list json.
Hypothesis stable :
  forall k : nat, disk w k (DATA_FILE w) = Present (Decodes (JList l)).

(** The first [i] entries of a pass, from a generator that holds none. *)
Lemma take_in_pass (file_path : path) (fuel i : nat) (st : state) :
  (1 <= fuel)%nat -> (1 <= i <= length l)%nat ->
  take_messages w file_path fuel i [] st =
    (Return (firstn i l, skipn i l), after_open w st).
Proof.
  intros Hfuel Hi.
  destruct i as [|i]; [lia|]. destruct fuel as [|fuel]; [lia|].
  destruct l as [|x rest] eqn:El; [simpl in Hi; lia|].
  cbn [take_messages]. unfold bind at 1.
  rewrite next_fresh, (load_list w file_path st (x :: rest)) by apply stable.
  rewrite next_held. unfold bind.
  rewrite take_held by (simpl in Hi; lia). reflexivity.
Qed.

(** [k] whole passes. *)
Lemma take_passes (file_path : path) (fuel : nat) :
  (1 <= fuel)%nat -> l <> [] ->
  forall (k : nat) (st : state),
    take_messages w file_path fuel (k * length l) [] st =
      (Return (concat (repeat l k), []), after_opens w k st).
Proof.
  intros Hfuel Hl. induction k as [|k IH]; intros st; [reflexivity|].
  assert (1 <= length l)%nat as Hlen by (destruct l; [congruence | simpl; lia]).
  cbn [Nat.mul]. rewrite take_app, take_in_pass by lia.
  rewrite firstn_all, skipn_all, IH. reflexivity.
Qed.
End stable_file.

(** With an empty list in the file, [next] makes pass after pass. *)
Lemma next_empty_file (w : world) (file_path : path) :
  (forall k : nat, disk w k (DATA_FILE w) = Present (Decodes (JList []))) ->
  forall (fuel : nat) (st : state),
    generate_messages_next w file_path fuel [] st = (Pending, after_opens w fuel st).
Proof.
  intros Hempty. induction fuel as [|fuel IH]; intros st; [reflexivity|].
  rewrite next_fresh, (load_list w file_path st []) by apply Hempty.
  rewrite IH. reflexivity.
Qed.

(** The path argument only shows in the reports. *)
Lemma load_any_path (w : world) (fp fp' : path) (st st' : state) :
  same_but_reports st st' ->
  fst (generate_messages_load w fp st) = fst (generate_messages_load w fp' st')
  /\ same_but_reports (snd (generate_messages_load w fp st))
                      (snd (generate_messages_load w fp' st')).
Proof.
  intros (Ht & Ho & Hs & Hti & Hsl).
  destruct (load_cases (disk w (n_open st) (DATA_FILE w))) as [(l & Hl & _)|[e He]].
  - rewrite (load_list w fp st l Hl).
    rewrite (load_list w fp' st' l) by (rewrite <- Ho; exact Hl).
    split; [reflexivity|].
    unfold same_but_reports; simpl. rewrite Ht. auto with lia.
  - rewrite (load_raises w fp st e He).
    rewrite (load_raises w fp' st' e) by (rewrite <- Ho; exact He).
    destruct (isinstance e FileNotFoundError);
      [|destruct (isinstance e JSONDecodeError);
        [|destruct (isinstance e Exception)]];
      (split; [reflexivity|]);
      unfold same_but_reports; simpl; rewrite Ht; auto with lia.
Qed.

Lemma next_any_path (w : world) (fp fp' : path) :
  forall (fuel : nat) (g : generator) (st st' : state),
    same_but_reports st st' ->
    fst (generate_messages_next w fp fuel g st)
    = fst (generate_messages_next w fp' fuel g st')
    /\ same_but_reports (snd (generate_messages_next w fp fuel g st))
                        (snd (generate_messages_next w fp' fuel g st')).
Proof.
  induction fuel as [|fuel IH]; intros g st st' Hst.
  - destruct g; simpl; auto.
  - destruct g as [|x rest]; [|rewrite !next_held; auto].
    rewrite !next_fresh.
    destruct (load_any_path w fp fp' st st' Hst) as [Hfst Hsnd].
    destruct (generate_messages_load w fp st) as [[l1| |] st1];
      destruct (generate_messages_load w fp' st') as [[l2| |] st2];
      simpl in Hfst, Hsnd; try discriminate;
      try (simpl; split; [congruence | exact Hsnd]).
    injection Hfst as <-. apply IH. exact Hsnd.
Qed.

(** The generator opens the data file and nothing else, and reports at
    most once. *)
Lemma next_shape (w : world) (file_path : path) :
  forall (fuel : nat) (g : generator) (st : state),
    exists (k : nat) (reports : list event),
      snd (generate_messages_next w file_path fuel g st)
      = after_events reports (after_opens w k st)
      /\ (k <= fuel)%nat
      /\ (reports = [] \/ exists m, reports = [Log Error m] /\ source_report m).
Proof.
  assert (forall st, st = after_events [] st) as Hid by (intros []; reflexivity).
  induction fuel as [|fuel IH]; intros g st.
  - exists O, []. destruct g; simpl; auto.
  - destruct g as [|x rest].
    2:{ rewrite next_held. exists O, []. simpl. auto with lia. }
    rewrite next_fresh.
    destruct (load_cases (disk w (n_open st) (DATA_FILE w))) as [(l & Hl & _)|[e He]].
    + rewrite (load_list w file_path st l Hl).
      destruct (IH l (after_open w st)) as (k & reports & Hk & Hle & Hrep).
      exists (S k), reports. rewrite Hk. simpl. auto with lia.
    + rewrite (load_raises w file_path st e He).
      exists 1%nat.
      destruct (isinstance e FileNotFoundError);
        [|destruct (isinstance e JSONDecodeError);
          [|destruct (isinstance e Exception)]];
        try (eexists; split; [reflexivity|]; split; [lia|]; right;
             eexists; split; [reflexivity | exact I]).
      exists []. simpl. auto with lia.
Qed.

(** The generator reads nothing of the world but the data file. *)
Lemma next_same_data (w w' : world) (file_path : path) :
  DATA_FILE w = DATA_FILE w' ->
  (forall k : nat, disk w k (DATA_FILE w) = disk w' k (DATA_FILE w)) ->
  forall (fuel : nat) (g : generator) (st : state),
    generate_messages_next w file_path fuel g st
    = generate_messages_next w' file_path fuel g st.
Proof.
  intros Hpath Hdisk.
  assert (forall st, generate_messages_load w file_path st
                     = generate_messages_load w' file_path st) as Hload.
  { intros st.
    unfold generate_messages_load, try_except, open_, bind, next_open, emit.
    simpl. rewrite <- Hpath, <- Hdisk. reflexivity. }
  induction fuel as [|fuel IH]; intros g st.
  - destruct g; reflexivity.
  - destruct g as [|x rest]; [|rewrite !next_held; reflexivity].
    rewrite !next_fresh, Hload.
    destruct (generate_messages_load w' file_path st) as [[l| |] st1];
      auto.
Qed.

(* ================================================================== *)
(** ** The streaming loop *)
(* ================================================================== *)

Lemma n_time_after_opens (w : world) (k : nat) (st : state) :
  n_time (after_opens w k st) = n_time st.
Proof.
  revert st. induction k as [|k IH]; intros st; simpl; [reflexivity|].
  rewrite IH. reflexivity.
Qed.

Lemma steady_next (w : world) (file_path : path) (fuel : nat) (g : generator) :
  steady (generate_messages_next w file_path fuel g).
Proof.
  intros st.
  destruct (next_shape w file_path fuel g st) as (k & reports & -> & _ & Hrep).
  simpl. rewrite n_time_after_opens, trace_after_opens. split; [reflexivity|].
  exists (reports ++ repeat (Open (DATA_FILE w)) k).
  rewrite <- app_assoc. split; [reflexivity|].
  apply Forall_app; split.
  - destruct Hrep as [->|(m & -> & Hm)]; [constructor|].
    constructor; [|constructor]. destruct m; simpl in Hm; try contradiction; exact I.
  - clear. induction k; simpl; constructor; simpl; auto.
Qed.

Lemma steady_send (w : world) (p : producer) (topic : string) (v : json) :
  steady (producer_send w p topic v).
Proof.
  intros st. unfold producer_send, bind, next_send, emit, lift. simpl.
  destruct (serializer p v) as [payload| |]; simpl.
  - split; [reflexivity|].
    exists [Transmit topic payload; SendCall topic v].
    split; [reflexivity|]. repeat constructor.
  - split; [reflexivity|]. exists [SendCall topic v].
    split; [reflexivity|]. repeat constructor.
  - split; [reflexivity|]. exists [SendCall topic v].
    split; [reflexivity|]. repeat constructor.
Qed.

Lemma steady_sleep (w : world) (secs : Z) : steady (time_sleep w secs).
Proof.
  intros st. unfold time_sleep.
  destruct (secs <? 0).
  - simpl. split; [reflexivity|]. exists []. split; [reflexivity | constructor].
  - unfold bind, next_sleep, emit, lift. simpl.
    split; [reflexivity|]. exists [Sleep secs].
    split; [reflexivity|]. repeat constructor.
Qed.

Lemma progress_quiet (w : world) (start_time : Q) (n0 : nat) (c0 : Z)
  (evs : list event) :
  Forall quiet evs -> progress_ok w start_time n0 c0 evs.
Proof.
  intros Hq. rewrite List.Forall_forall in Hq.
  split; [|split; [|split]].
  - apply List.Forall_forall. intros ev Hev. specialize (Hq ev Hev).
    destruct ev; try reflexivity. contradiction.
  - intros lvl c t lat m H. apply Hq in H. contradiction.
  - intros lvl c e thr H. apply Hq in H. contradiction.
  - intros lvl c t lat m H. apply Hq in H. contradiction.
Qed.

Lemma progress_app (w : world) (start_time : Q) (n0 : nat) (c0 : Z)
  (evs1 evs2 : list event) :
  progress_ok w start_time n0 c0 evs1 ->
  progress_ok w start_time n0 c0 evs2 ->
  progress_ok w start_time n0 c0 (evs1 ++ evs2).
Proof.
  intros (Hc1 & Hs1 & Ht1 & Hp1) (Hc2 & Hs2 & Ht2 & Hp2).
  split; [|split; [|split]].
  - apply Forall_app; split; assumption.
  - intros lvl c t lat m H. apply in_app_or in H as [H|H]; eauto.
  - intros lvl c e thr H. apply in_app_or in H as [H|H]; eauto.
  - intros lvl c t lat m H Hm He. apply in_or_app.
    apply in_app_or in H as [H|H]; eauto.
Qed.

(** The events of the later iterations, seen from one iteration before. *)
Lemma progress_later (w : world) (start_time : Q) (n0 : nat) (c0 : Z)
  (evs : list event) :
  progress_ok w start_time (n0 + 2) (c0 + 1) evs ->
  progress_ok w start_time n0 c0 evs.
Proof.
  assert (forall c, c0 + 1 < c ->
                    end_time w (n0 + 2) (c0 + 1) c = end_time w n0 c0 c) as Hend.
  { intros c Hc. unfold end_time. f_equal. lia. }
  intros (Hc & Hs & Ht & Hp).
  split; [|split; [|split]].
  - exact Hc.
  - intros lvl c t lat m H. apply Hs in H. lia.
  - intros lvl c e thr H. apply Ht in H as (H1 & H2 & H3 & H4 & H5).
    rewrite Hend in H3 by exact H1. repeat split; auto. lia.
  - intros lvl c t lat m H Hm He. pose proof (Hs _ _ _ _ _ H) as Hlt.
    rewrite <- Hend in He |- * by exact Hlt. eauto.
Qed.

(** The progress reports of one iteration. *)
Lemma progress_report (w : world) (start_time : Q) (n0 : nat) (c0 : Z)
  (topic : string) (lat : Q) (m : json) (st : state) :
  0 <= c0 ->
  let c := c0 + 1 in
  let e := (clock w (n0 + 1) - start_time)%Q in
  let report :=
    (if c mod 10 =? 0 then
       throughput <- truediv c e ;;
       log Info (MsgThroughput c e throughput)
     else ret tt) in
  n_time (snd (report st)) = n_time st
  /\ exists evs,
      trace (snd (report st)) = evs ++ trace st
      /\ progress_ok w start_time n0 c0 (evs ++ [Log Info (MsgSent c topic lat m)]).
Proof.
  intros Hc0 c e report. subst report.
  assert (end_time w n0 c0 c = clock w (n0 + 1)) as Hend.
  { unfold end_time, c. f_equal. lia. }
  destruct (Z.eqb_spec (c mod 10) 0) as [Hmod|Hmod].
  - unfold truediv, bind, log, emit.
    destruct (Qeq_bool e 0) eqn:He; simpl.
    + split; [reflexivity|]. exists []. split; [reflexivity|].
      split; [|split; [|split]].
      * repeat constructor.
      * intros lvl c' t' lat' m' [[= _ <- _ _ _]|[]]. subst c; lia.
      * intros lvl c' e' thr [[=]|[]].
      * intros lvl c' t' lat' m' [[= _ <- _ _ _]|[]] _ Hne.
        rewrite Hend in Hne. apply Qeq_bool_iff in He. contradiction.
    + split; [reflexivity|].
      exists [Log Info (MsgThroughput c e (inject_Z c / e))].
      split; [reflexivity|].
      assert (~ (e == 0)%Q) as Hne.
      { intros Heq. apply Qeq_bool_iff in Heq. congruence. }
      split; [|split; [|split]].
      * repeat constructor.
      * intros lvl c' t' lat' m' [[=]|[[= _ <- _ _ _]|[]]]. subst c; lia.
      * intros lvl c' e' thr [[= _ <- <- <-]|[[=]|[]]].
        rewrite Hend. repeat split; auto. subst c; lia.
      * intros lvl c' t' lat' m' [[=]|[[= _ <- _ _ _]|[]]] _ _.
        rewrite Hend. left. reflexivity.
  - simpl. split; [reflexivity|]. exists []. split; [reflexivity|].
    split; [|split; [|split]].
    + repeat constructor.
    + intros lvl c' t' lat' m' [[= _ <- _ _ _]|[]]. subst c; lia.
    + intros lvl c' e' thr [[=]|[]].
    + intros lvl c' t' lat' m' [[= _ <- _ _ _]|[]] Hm. contradiction.
Qed.

Lemma time_time_eq (w : world) (st : state) :
  time_time w st = (Return (clock w (n_time st)), after_time st).
Proof. reflexivity. Qed.

Lemma log_eq (lvl : level) (m : message) (st : state) :
  log lvl m st = (Return tt, after_events [Log lvl m] st).
Proof. reflexivity. Qed.

(** The events of the loop, by induction on its iterations. *)
Lemma for_messages_progress (w : world) (gfuel : nat) (p : producer)
  (topic : string) (interval_secs : Z) (start_time : Q) :
  forall (fuel : nat) (g : generator) (c0 : Z) (st : state),
    0 <= c0 ->
    exists evs,
      trace (snd (for_messages w gfuel fuel p topic interval_secs start_time g c0 st))
      = evs ++ trace st
      /\ progress_ok w start_time (n_time st) c0 evs.
Proof.
  induction fuel as [|fuel IH]; intros g c0 st Hc0.
  { exists []. split; [reflexivity|]. apply progress_quiet. constructor. }
  cbn [for_messages]. unfold bind at 1.
  (* next(generator) *)
  pose proof (steady_next w (DATA_FILE w) gfuel g st) as (Hn1 & evs1 & Ht1 & Hq1).
  destruct (generate_messages_next w (DATA_FILE w) gfuel g st) as [[[x g']| |] st1];
    cbn [fst snd] in Hn1, Ht1;
    [|exists evs1; split; [exact Ht1 | apply progress_quiet; exact Hq1] ..].
  (* msg_start_time *)
  unfold bind at 1. rewrite time_time_eq. cbn beta iota.
  (* producer.send *)
  unfold bind at 1.
  pose proof (steady_send w p topic x (after_time st1)) as (Hn3 & evs3 & Ht3 & Hq3).
  destruct (producer_send w p topic x (after_time st1)) as [[[]| |] st3];
    cbn [fst snd after_time n_time trace] in Hn3, Ht3;
    [|exists (evs3 ++ evs1); cbn [fst snd]; rewrite Ht3, Ht1, <- app_assoc;
      (split; [reflexivity|]); apply progress_quiet, Forall_app; auto ..].
  (* msg_end_time, the count and the first report *)
  unfold bind at 1. rewrite time_time_eq. cbn beta iota zeta.
  unfold bind at 1. rewrite log_eq. cbn beta iota.
  assert (n_time st3 = (n_time st + 1)%nat) as Hn3' by lia.
  rewrite Hn3'.
  set (sent := Log Info (MsgSent (c0 + 1) topic
                           (clock w (n_time st + 1) - clock w (n_time st1)) x)).
  set (st5 := after_events [sent] (after_time st3)).
  (* the throughput report *)
  unfold bind at 1.
  pose proof (progress_report w start_time (n_time st) c0 topic
                (clock w (n_time st + 1) - clock w (n_time st1))%Q x st5 Hc0)
    as (Hn6 & evs6 & Ht6 & Hp6).
  cbn zeta in Hn6, Ht6, Hp6. fold sent in Hp6.
  assert (trace st5 = [sent] ++ evs3 ++ evs1 ++ trace st) as Ht5.
  { unfold st5. simpl. rewrite Ht3, Ht1. reflexivity. }
  assert (progress_ok w start_time (n_time st) c0 (evs3 ++ evs1)) as Hp31
    by (apply progress_quiet, Forall_app; auto).
  match goal with
  | |- context [match ?r st5 with _ => _ end] => destruct (r st5) as [[[]| |] st6]
  end;
    cbn [fst snd] in Hn6, Ht6;
    [|exists ((evs6 ++ [sent]) ++ evs3 ++ evs1); cbn [fst snd]; rewrite Ht6, Ht5, <- !app_assoc;
      (split; [reflexivity|]); rewrite app_assoc; apply progress_app; auto ..].
  (* time.sleep *)
  unfold bind at 1.
  pose proof (steady_sleep w interval_secs st6) as (Hn7 & evs7 & Ht7 & Hq7).
  destruct (time_sleep w interval_secs st6) as [[[]| |] st7];
    cbn [fst snd] in Hn7, Ht7;
    [|exists (evs7 ++ (evs6 ++ [sent]) ++ evs3 ++ evs1); cbn [fst snd];
      rewrite Ht7, Ht6, Ht5, <- !app_assoc;
      (split; [reflexivity|]);
      rewrite (app_assoc evs6); apply progress_app;
      [apply progress_quiet; exact Hq7 | apply progress_app; auto] ..].
  (* the later iterations *)
  destruct (IH g' (c0 + 1) st7 ltac:(lia)) as (evs8 & Ht8 & Hp8).
  assert (n_time st7 = (n_time st + 2)%nat) as Hn7'.
  { rewrite Hn7, Hn6. unfold st5. simpl. lia. }
  rewrite Hn7' in Hp8. apply progress_later in Hp8.
  exists (evs8 ++ evs7 ++ (evs6 ++ [sent]) ++ evs3 ++ evs1).
  rewrite Ht8, Ht7, Ht6, Ht5, <- !app_assoc.
  split; [reflexivity|].
  rewrite (app_assoc evs6).
  apply progress_app; [exact Hp8|].
  apply progress_app; [apply progress_quiet; exact Hq7|].
  apply progress_app; auto.
Qed.

(* ================================================================== *)
(** ** The driver *)
(* ================================================================== *)

(** When the start-up succeeds, [main] is the streaming part. *)
Lemma main_reaches_streaming (w : world) (fuel : nat) (topic : string)
  (interval_secs : Z) :
  reaches_streaming w topic interval_secs ->
  run w fuel
  = stream w fuel the_producer topic interval_secs (clock w 0)
      (streaming_state topic interval_secs).
Proof.
  intros (Hv & Ht & Hi & He & Hp & Hc).
  unfold run, main, verify_services, get_kafka_topic, get_message_interval,
    create_kafka_producer, create_kafka_topic, try_except.
  fold (interval_setting w). fold (topic_setting w). rewrite <- Ht.
  unfold bind at 1. rewrite log_eq.
  unfold bind at 1. unfold lift at 1. rewrite Hv.
  unfold bind at 1. unfold bind at 1. rewrite log_eq. unfold ret at 1.
  unfold bind at 1. unfold bind at 1. unfold bind at 1. unfold lift at 1.
  rewrite Hi. rewrite log_eq. unfold ret at 1.
  unfold bind at 1. rewrite He. unfold negb, ret at 1.
  unfold bind at 1. unfold bind at 1. unfold lift at 1. rewrite Hp.
  unfold ret at 1.
  unfold bind at 1. unfold lift at 1. rewrite Hc.
  unfold bind at 1. rewrite log_eq.
  unfold bind at 1. rewrite time_time_eq.
  reflexivity.
Qed.

(** The shutdown, by the way the loop ends. *)
Lemma stream_cases (w : world) (fuel : nat) (p : producer) (topic : string)
  (interval_secs : Z) (start_time : Q) (st : state) :
  stream w fuel p topic interval_secs start_time st =
    match for_messages w fuel fuel p topic interval_secs start_time new_generator 0 st with
    | (Return _, st1) =>
        (Return tt,
         after_events [Log Info MsgEnd; Log Info MsgClosed; Close] st1)
    | (Raise e, st1) =>
        if isinstance e KeyboardInterrupt then
          (Return tt,
           after_events [Log Info MsgEnd; Log Info MsgClosed; Close;
                         Log Warning MsgInterrupted] st1)
        else if isinstance e Exception then
          (Return tt,
           after_events [Log Info MsgEnd; Log Info MsgClosed; Close;
                         Log Error (MsgProductionError e)] st1)
        else
          (Raise e, after_events [Log Info MsgClosed; Close] st1)
    | (Pending, st1) => (Pending, st1)
    end.
Proof.
  unfold stream, bind, try_finally, try_except, producer_close, log, emit.
  destruct (for_messages w fuel fuel p topic interval_secs start_time new_generator 0 st)
    as [[[]|e|] st1]; cbn [find_handler]; try reflexivity.
  destruct (isinstance e KeyboardInterrupt); [reflexivity|].
  destruct (isinstance e Exception); reflexivity.
Qed.

Lemma count_app (f : event -> bool) (l1 l2 : list event) :
  count f (l1 ++ l2) = (count f l1 + count f l2)%nat.
Proof.
  induction l1 as [|ev l1 IH]; simpl; [reflexivity|].
  destruct (f ev); rewrite IH; reflexivity.
Qed.

Lemma count_rev (f : event -> bool) (l : list event) :
  count f (rev l) = count f l.
Proof.
  induction l as [|ev l IH]; simpl; [reflexivity|].
  rewrite count_app, IH. simpl. destruct (f ev); lia.
Qed.

Lemma count_none (f : event -> bool) (l : list event) :
  Forall (fun ev => f ev = false) l -> count f l = O.
Proof.
  induction 1 as [|ev l Hev Hl IH]; simpl; [reflexivity|].
  rewrite Hev. exact IH.
Qed.

(** The loop of a run that reached it leaves the client alone. *)
Lemma for_messages_no_close (w : world) (fuel : nat) (p : producer)
  (topic : string) (interval_secs : Z) (start_time : Q) (st : state) :
  count is_close
    (trace (snd (for_messages w fuel fuel p topic interval_secs start_time
                   new_generator 0 st)))
  = count is_close (trace st).
Proof.
  destruct (for_messages_progress w fuel p topic interval_secs start_time
              fuel new_generator 0 st ltac:(lia)) as (evs & -> & Hc & _).
  rewrite count_app, (count_none _ _ Hc). reflexivity.
Qed.

(* ================================================================== *)
(** ** The properties of the specification *)
(* ================================================================== *)

Lemma non_list_raises (v : json) :
  isinstance_list v = false ->
  load_exception (Present (Decodes v))
  = Some (new_exn ValueError "Expected a list of JSON objects").
Proof. destruct v; simpl; intros H; try reflexivity. discriminate. Qed.

(** A run whose data file decodes to something that is not a list. *)
Lemma run_non_list (w : world) (fuel : nat) (topic : string) (interval_secs : Z)
  (v : json) :
  reaches_streaming w topic interval_secs ->
  disk w 0 (DATA_FILE w) = Present (Decodes v) ->
  isinstance_list v = false ->
  run w (S fuel)
  = (Raise (system_exit 3),
     after_events
       [Log Info MsgClosed; Close;
        Log Error (MsgUnexpected (new_exn ValueError "Expected a list of JSON objects"))]
       (after_open w (streaming_state topic interval_secs))).
Proof.
  intros Hstart Hdisk Hv.
  rewrite (main_reaches_streaming w (S fuel) topic interval_secs Hstart), stream_cases.
  cbn [for_messages]. unfold bind at 1. unfold new_generator. rewrite next_fresh.
  rewrite (load_raises w (DATA_FILE w) _
             (new_exn ValueError "Expected a list of JSON objects"))
    by (simpl; rewrite Hdisk; apply non_list_raises; exact Hv).
  reflexivity.
Qed.

(** C1, as the code has it.  When the data file decodes to a value that
    is not a list, the first [next] of the generator yields nothing and
    raises [SystemExit(3)]: the [ValueError] of the check is not a
    [JSONDecodeError], so the clause for [Exception] takes it.  A run that
    reached the loop then sends nothing, releases the client and ends
    with status 3. *)
Theorem non_sequence_root_exits_3 (w : world) (fuel : nat) (topic : string)
  (interval_secs : Z) (v : json) :
  (forall k : nat, disk w k (DATA_FILE w) = Present (Decodes v)) ->
  isinstance_list v = false ->
  (1 <= fuel)%nat ->
  (forall (file_path : path) (st : state),
      generate_messages_next w file_path fuel new_generator st
      = (Raise (system_exit 3),
         after_events
           [Log Error (MsgUnexpected (new_exn ValueError "Expected a list of JSON objects"))]
           (after_open w st)))
  /\ (reaches_streaming w topic interval_secs ->
      exit_status (fst (run w fuel)) = Some 3
      /\ events (snd (run w fuel))
         = [Log Info MsgStart; Log Info (MsgTopic topic);
            Log Info (MsgInterval interval_secs); Log Info (MsgStarting topic);
            Open (DATA_FILE w);
            Log Error (MsgUnexpected (new_exn ValueError "Expected a list of JSON objects"));
            Close; Log Info MsgClosed]
      /\ count is_send_call (events (snd (run w fuel))) = O).
Proof.
  intros Hdisk Hv Hfuel. destruct fuel as [|fuel]; [lia|]. split.
  - intros file_path st. unfold new_generator. rewrite next_fresh.
    rewrite (load_raises w file_path st
               (new_exn ValueError "Expected a list of JSON objects"))
      by (rewrite Hdisk; apply non_list_raises; exact Hv).
    reflexivity.
  - intros Hstart.
    rewrite (run_non_list w fuel topic interval_secs v Hstart (Hdisk O) Hv).
    repeat split.
Qed.

Lemma non_sequence_root_exits_3_witness :
  exit_status (fst (run object_world 1)) = Some 3.
Proof.
  refine (proj1 (proj2 (non_sequence_root_exits_3 object_world 1 "unknown_topic" 0
                          (record 1) _ _ _) _)).
  - intros k. reflexivity.
  - reflexivity.
  - lia.
  - repeat split.
Defined.

(** C1 as it is written fails: with a single object in the data file, no
    run ends with status 2. *)
Lemma object_root_never_exits_2 :
  (forall k : nat,
      disk object_world k (DATA_FILE object_world) = Present (Decodes (record 1)))
  /\ isinstance_list (record 1) = false
  /\ reaches_streaming object_world "unknown_topic" 0
  /\ exit_status (fst (run object_world 1)) = Some 3
  /\ forall fuel : nat, exit_status (fst (run object_world fuel)) <> Some 2.
Proof.
  assert (reaches_streaming object_world "unknown_topic" 0) as Hstart
    by (repeat split).
  split; [reflexivity|]. split; [reflexivity|]. split; [exact Hstart|].
  split; [reflexivity|].
  intros [|fuel].
  - vm_compute. discriminate.
  - rewrite (run_non_list object_world fuel "unknown_topic" 0 (record 1) Hstart
               eq_refl eq_refl).
    vm_compute. discriminate.
Qed.

(** C2.  With a list [l] of at least one record in the data file, the
    calls of [next] yield [l] from its first entry to its last, pass
    after pass: after [k] whole passes and [i] entries of the next, the
    values yielded are [k] copies of [l] followed by the first [i] entries
    of [l]; the file has then been opened [k + 1] times, once at the start
    of each pass; and the call that follows a whole pass yields the first
    record again. *)
Theorem generator_replays_in_order (w : world) (file_path : path)
  (l : list json) (fuel k i : nat) (st : state) :
  l <> [] ->
  (forall n : nat, disk w n (DATA_FILE w) = Present (Decodes (JList l))) ->
  (1 <= fuel)%nat ->
  (1 <= i <= length l)%nat ->
  take_messages w file_path fuel (k * length l + i) new_generator st
  = (Return (concat (repeat l k) ++ firstn i l, skipn i l),
     after_opens w (S k) st)
  /\ exists (first : json) (rest : list json),
      l = first :: rest
      /\ take_messages w file_path fuel (length l + 1) new_generator st
         = (Return (l ++ [first], rest), after_opens w 2 st).
Proof.
  intros Hl Hstable Hfuel Hi.
  assert (forall (k i : nat),
             (1 <= i <= length l)%nat ->
             take_messages w file_path fuel (k * length l + i) new_generator st
             = (Return (concat (repeat l k) ++ firstn i l, skipn i l),
                after_opens w (S k) st)) as Hgen.
  { intros k' i' Hi'. unfold new_generator.
    rewrite take_app, (take_passes w l Hstable file_path fuel Hfuel Hl).
    rewrite (take_in_pass w l Hstable) by assumption.
    rewrite after_opens_S. reflexivity. }
  split; [apply Hgen; exact Hi|].
  destruct l as [|first rest] eqn:El; [congruence|].
  exists first, rest. split; [reflexivity|].
  specialize (Hgen 1%nat 1%nat ltac:(simpl; lia)).
  replace (1 * length (first :: rest) + 1)%nat
    with (length (first :: rest) + 1)%nat in Hgen by lia.
  rewrite Hgen. simpl. rewrite app_nil_r. reflexivity.
Qed.

Lemma generator_replays_in_order_witness :
  take_messages sample_world [] 1 4 new_generator initial_state
  = (Return ([record 1; record 2; record 3] ++ [record 1], [record 2; record 3]),
     after_opens sample_world 2 initial_state).
Proof.
  refine (proj1 (generator_replays_in_order sample_world [] 
                   [record 1; record 2; record 3] 1 1 1 initial_state _ _ _ _)).
  - discriminate.
  - intros n. reflexivity.
  - lia.
  - simpl. lia.
Defined.

(** The end-to-end scenario of the specification: three records, no
    delay, a broker that accepts, and an interruption in the fifth send.
    The values handed to [send] are the three records in order, then the
    first and the second again. *)
Example three_records_then_wraparound :
  let (o, st) := run interrupted_world 10 in
  exit_status o = Some 0
  /\ List.filter is_send_call (events st)
     = [SendCall "unknown_topic" (record 1); SendCall "unknown_topic" (record 2);
        SendCall "unknown_topic" (record 3); SendCall "unknown_topic" (record 1);
        SendCall "unknown_topic" (record 2)]
  /\ count is_open (events st) = 2%nat
  /\ count is_close (events st) = 1%nat.
Proof. vm_compute. repeat split. Qed.

(** A pass sees the file as it is when the pass starts. *)
Example pass_reads_the_file_again :
  let w := with_disk (fun k _ => Present (Decodes (JList [record (Z.of_nat k)])))
             sample_world in
  fst (take_messages w [] 1 3 new_generator initial_state)
  = Return ([record 0; record 1; record 2], []).
Proof. reflexivity. Qed.

(** C6, as the code has it.  A failure of a pass ends the process with
    the status of its mode: 1 for a missing file, 2 for a content that is
    not JSON, 3 for a root that is not a list and 3 for any other failure.
    Two modes have the same status exactly when they are the same or are
    the last two. *)
Theorem source_failure_statuses :
  (forall (w : world) (file_path : path) (st : state) (m : failure_mode),
      failure_mode_of (disk w (n_open st) (DATA_FILE w)) = Some m ->
      fst (generate_messages_load w file_path st)
      = Raise (system_exit (failure_status m)))
  /\ (forall m1 m2 : failure_mode,
         failure_status m1 = failure_status m2 <->
         m1 = m2
         \/ (m1 = RootNotSequence /\ m2 = OtherFailure)
         \/ (m1 = OtherFailure /\ m2 = RootNotSequence)).
Proof.
  split.
  - intros w file_path st m Hm.
    destruct (disk w (n_open st) (DATA_FILE w)) as [|e|[v|e]] eqn:Hdisk;
      simpl in Hm.
    + injection Hm as <-.
      rewrite (load_raises w file_path st
                 (new_exn FileNotFoundError "No such file or directory"))
        by (rewrite Hdisk; reflexivity).
      reflexivity.
    + rewrite (load_raises w file_path st e) by (rewrite Hdisk; reflexivity).
      destruct (isinstance e FileNotFoundError); [discriminate|].
      destruct (isinstance e JSONDecodeError); [discriminate|].
      destruct (isinstance e Exception); [|discriminate].
      injection Hm as <-. reflexivity.
    + destruct (isinstance_list v) eqn:Hv; [discriminate|]. injection Hm as <-.
      rewrite (load_raises w file_path st
                 (new_exn ValueError "Expected a list of JSON objects"))
        by (rewrite Hdisk; apply non_list_raises; exact Hv).
      reflexivity.
    + rewrite (load_raises w file_path st e) by (rewrite Hdisk; reflexivity).
      destruct (isinstance e FileNotFoundError); [discriminate|].
      destruct (isinstance e JSONDecodeError); [injection Hm as <-; reflexivity|].
      destruct (isinstance e Exception); [|discriminate].
      injection Hm as <-. reflexivity.
  - intros m1 m2. split.
    + destruct m1, m2; simpl; intros H; try discriminate; auto.
    + intros [->|[[-> ->]|[-> ->]]]; reflexivity.
Qed.

Lemma source_failure_statuses_witness :
  fst (generate_messages_load denied_world [] initial_state)
  = Raise (system_exit 3).
Proof.
  exact (proj1 source_failure_statuses denied_world [] initial_state OtherFailure
           eq_refl).
Defined.

(** C6 as it is written fails: a root that is not a list and a file that
    cannot be opened are two failure modes, and both end the process with
    status 3. *)
Lemma two_failure_modes_share_status_3 :
  failure_mode_of (disk object_world 0 (DATA_FILE object_world))
  = Some RootNotSequence
  /\ failure_mode_of (disk denied_world 0 (DATA_FILE denied_world))
     = Some OtherFailure
  /\ RootNotSequence <> OtherFailure
  /\ fst (generate_messages_load object_world (DATA_FILE object_world) initial_state)
     = Raise (system_exit 3)
  /\ fst (generate_messages_load denied_world (DATA_FILE denied_world) initial_state)
     = Raise (system_exit 3).
Proof. repeat split. discriminate. Qed.

(** *** Configuration *)









(** *** The serializer *)

(** What the client that [main] creates sends: the bytes of its
    serializer, which is [value_serializer]. *)
Lemma producer_send_transmits (w : world) (topic : string) (v : json)
  (st : state) (bs : pybytes) :
  value_serializer v = Return bs ->
  exists st', producer_send w the_producer topic v st
              = (send_result w (n_send st),
                 after_events [Transmit topic bs; SendCall topic v] st').
Proof.
  intros H. unfold producer_send, bind, next_send, emit, lift. simpl. rewrite H.
  eexists {| trace := trace st; n_open := n_open st; n_send := S (n_send st);
             n_time := n_time st; n_sleep := n_sleep st |}.
  reflexivity.
Qed.


Example value_serializer_record :
  value_serializer (record 1)
  = Return (str "{" ++ [34] ++ str "id" ++ [34] ++ str ": 1}").
Proof. reflexivity. Qed.

Example value_serializer_escapes :
  value_serializer (JList [JStr [233; 10; 128512]; JNull; JFloat "nan"])
  = Return (str "[" ++ [34] ++ str "\u00e9\n\ud83d\ude00" ++ [34]
            ++ str ", null, NaN]").
Proof. reflexivity. Qed.

(** *** The generator and its argument *)

Lemma json_error_is_not_missing_file (e : exn) :
  isinstance e JSONDecodeError = true -> isinstance e FileNotFoundError = false.
Proof. destruct e as [c m code]. destruct c; cbv; intros H; congruence. Qed.

(** C9.  The path given to [generate_messages] plays no part in what is
    read.  Whatever the argument, [next] returns the same result and
    leaves the same state but for the path named in the reports; every
    file it opens is [DATA_FILE]; two worlds with the same [DATA_FILE]
    and the same states of it give the same run of the generator; and the
    reports of a missing file and of a content that is not JSON name the
    argument. *)
Theorem generator_ignores_file_path (w : world) (file_path : path)
  (fuel : nat) (g : generator) (st : state) :
  (forall file_path' : path,
      fst (generate_messages_next w file_path fuel g st)
      = fst (generate_messages_next w file_path' fuel g st)
      /\ same_but_reports (snd (generate_messages_next w file_path fuel g st))
                          (snd (generate_messages_next w file_path' fuel g st)))
  /\ (exists (k : nat) (reports : list event),
         snd (generate_messages_next w file_path fuel g st)
         = after_events reports (after_opens w k st)
         /\ (k <= fuel)%nat
         /\ (reports = [] \/ exists m, reports = [Log Error m] /\ source_report m))
  /\ (forall w' : world,
         DATA_FILE w = DATA_FILE w' ->
         (forall k : nat, disk w k (DATA_FILE w) = disk w' k (DATA_FILE w)) ->
         generate_messages_next w file_path fuel g st
         = generate_messages_next w' file_path fuel g st)
  /\ (disk w (n_open st) (DATA_FILE w) = Absent ->
      generate_messages_load w file_path st
      = (Raise (system_exit 1),
         after_events [Log Error (MsgFileNotFound file_path)] (after_open w st)))
  /\ (forall e : exn,
         disk w (n_open st) (DATA_FILE w) = Present (DoesNotDecode e) ->
         isinstance e JSONDecodeError = true ->
         generate_messages_load w file_path st
         = (Raise (system_exit 2),
            after_events [Log Error (MsgInvalidJSON file_path e)] (after_open w st))).
Proof.
  split; [|split; [|split; [|split]]].
  - intros file_path'. apply next_any_path. repeat split.
  - apply next_shape.
  - intros w' Hpath Hdisk. apply next_same_data; assumption.
  - intros Hdisk.
    rewrite (load_raises w file_path st
               (new_exn FileNotFoundError "No such file or directory"))
      by (rewrite Hdisk; reflexivity).
    reflexivity.
  - intros e Hdisk He.
    rewrite (load_raises w file_path st e) by (rewrite Hdisk; reflexivity).
    rewrite (json_error_is_not_missing_file e He), He. reflexivity.
Qed.

Lemma generator_ignores_file_path_witness :
  generate_messages_load missing_world ["somewhere"; "else.json"] initial_state
  = (Raise (system_exit 1),
     after_events [Log Error (MsgFileNotFound ["somewhere"; "else.json"])]
       (after_open missing_world initial_state)).
Proof.
  exact (proj1 (proj2 (proj2 (proj2
           (generator_ignores_file_path missing_world ["somewhere"; "else.json"]
              1 new_generator initial_state)))) eq_refl).
Defined.

(** The file that is opened is the data file, whatever the argument. *)
Example another_path_is_not_opened :
  let w := with_disk (fun _ p => if decide (p = DATA_FILE sample_world)
                                 then Present (Decodes (JList [record 7]))
                                 else Absent) sample_world in
  generate_messages_next w ["somewhere"; "else.json"] 1 new_generator initial_state
  = (Return (record 7, []), after_open w initial_state).
Proof. reflexivity. Qed.

(** *** The empty collection *)

Lemma count_repeat_open (f : event -> bool) (p : path) (k : nat) :
  count f (repeat (Open p) k) = if f (Open p) then k else O.
Proof.
  induction k as [|k IH]; simpl; [destruct (f (Open p)); reflexivity|].
  rewrite IH. destruct (f (Open p)); reflexivity.
Qed.

(** C10.  With the empty list in the data file, [next] never returns:
    whatever the fuel, it is still pending, having opened the file once
    per unit of fuel.  A run that reached the loop is then pending for
    ever: it has no exit status, has called [send] not once, and has
    opened the file as often as it was given fuel. *)
Theorem empty_collection_never_yields (w : world) :
  (forall k : nat, disk w k (DATA_FILE w) = Present (Decodes (JList []))) ->
  (forall (file_path : path) (fuel : nat) (st : state),
      generate_messages_next w file_path fuel new_generator st
      = (Pending, after_opens w fuel st))
  /\ (forall (topic : string) (interval_secs : Z) (fuel : nat),
         reaches_streaming w topic interval_secs ->
         run w fuel = (Pending, after_opens w fuel (streaming_state topic interval_secs))
         /\ exit_status (fst (run w fuel)) = None
         /\ count is_send_call (events (snd (run w fuel))) = O
         /\ count is_close (events (snd (run w fuel))) = O
         /\ count is_open (events (snd (run w fuel))) = fuel).
Proof.
  intros Hempty. split.
  - intros file_path fuel st. apply next_empty_file. exact Hempty.
  - intros topic interval_secs fuel Hstart.
    assert (run w fuel
            = (Pending, after_opens w fuel (streaming_state topic interval_secs)))
      as Hrun.
    { rewrite (main_reaches_streaming w fuel topic interval_secs Hstart), stream_cases.
      destruct fuel as [|fuel]; [reflexivity|].
      cbn [for_messages]. unfold bind at 1.
      rewrite (next_empty_file w (DATA_FILE w) Hempty). reflexivity. }
    rewrite Hrun. cbn [fst snd exit_status]. unfold events.
    rewrite !count_rev, trace_after_opens, !count_app, !count_repeat_open.
    simpl. repeat split; lia.
Qed.

Lemma empty_collection_never_yields_witness :
  run empty_world 7
  = (Pending, after_opens empty_world 7 (streaming_state "unknown_topic" 0)).
Proof.
  refine (proj1 (proj2 (empty_collection_never_yields empty_world _)
                   "unknown_topic" 0 7%nat _)).
  - intros k. reflexivity.
  - repeat split.
Defined.

(** *** Shutdown *)

(** C3, as the code has it.  In a run that reached the streaming loop, as
    soon as the run is over the client has been released exactly once,
    however the loop ended.  When the loop ends with [KeyboardInterrupt]
    or with an instance of [Exception], nothing follows the events of the
    loop but one report, the release of the client and the two closing
    records, [main] returns and the exit status is 0.  An exception of
    another kind, such as the [SystemExit] of the generator, leaves [main]
    after the release of the client. *)
Theorem shutdown_after_loop_exception (w : world) (fuel : nat) (topic : string)
  (interval_secs : Z) :
  reaches_streaming w topic interval_secs ->
  (fst (run w fuel) <> Pending ->
   count is_close (events (snd (run w fuel))) = 1%nat)
  /\ (forall (e : exn) (st1 : state),
         for_messages w fuel fuel the_producer topic interval_secs (clock w 0)
           new_generator 0 (streaming_state topic interval_secs)
         = (Raise e, st1) ->
         isinstance e KeyboardInterrupt = true \/ isinstance e Exception = true ->
         exists report : event,
           run w fuel
           = (Return tt,
              after_events [Log Info MsgEnd; Log Info MsgClosed; Close; report] st1)
           /\ (report = Log Warning MsgInterrupted
               \/ report = Log Error (MsgProductionError e))
           /\ exit_status (fst (run w fuel)) = Some 0)
  /\ (forall (e : exn) (st1 : state),
         for_messages w fuel fuel the_producer topic interval_secs (clock w 0)
           new_generator 0 (streaming_state topic interval_secs)
         = (Raise e, st1) ->
         isinstance e KeyboardInterrupt = false ->
         isinstance e Exception = false ->
         run w fuel = (Raise e, after_events [Log Info MsgClosed; Close] st1)).
Proof.
  intros Hstart.
  rewrite (main_reaches_streaming w fuel topic interval_secs Hstart), stream_cases.
  pose proof (for_messages_no_close w fuel the_producer topic interval_secs
                (clock w 0) (streaming_state topic interval_secs)) as Hc.
  destruct (for_messages w fuel fuel the_producer topic interval_secs (clock w 0)
              new_generator 0 (streaming_state topic interval_secs))
    as [[[]|e|] st1]; cbn [snd] in Hc; simpl in Hc.
  - split; [|split; intros e st1' [=]].
    intros _. cbn [snd]. unfold events. rewrite count_rev. simpl. rewrite Hc.
    reflexivity.
  - split; [|split].
    + intros _. unfold events.
      destruct (isinstance e KeyboardInterrupt);
        [|destruct (isinstance e Exception)];
        cbn [snd]; rewrite count_rev; simpl; rewrite Hc; reflexivity.
    + intros e' st1' [= <- <-] Hclass.
      destruct (isinstance e KeyboardInterrupt) eqn:Hki.
      { eexists. split; [reflexivity|]. split; [left; reflexivity | reflexivity]. }
      destruct Hclass as [Hki'|Hexc]; [discriminate|]. rewrite Hexc.
      eexists. split; [reflexivity|]. split; [right; reflexivity | reflexivity].
    + intros e' st1' [= <- <-] Hki Hexc. rewrite Hki, Hexc. reflexivity.
  - split; [|split; intros e st1' [=]].
    intros H. exfalso. apply H. reflexivity.
Qed.

Lemma shutdown_after_loop_exception_witness :
  count is_close (events (snd (run interrupted_world 10))) = 1%nat
  /\ exit_status (fst (run refused_world 10)) = Some 0.
Proof.
  split.
  - refine (proj1 (shutdown_after_loop_exception interrupted_world 10
                     "unknown_topic" 0 _) _).
    + repeat split.
    + vm_compute. discriminate.
  - destruct (proj1 (proj2 (shutdown_after_loop_exception refused_world 10
                              "unknown_topic" 0 ltac:(repeat split)))
                (new_exn KafkaError "KafkaTimeoutError")
                (snd (for_messages refused_world 10 10 the_producer
                        "unknown_topic" 0 (clock refused_world 0) new_generator 0
                        (streaming_state "unknown_topic" 0))))
      as (report & _ & _ & Hstatus).
    + vm_compute. reflexivity.
    + right. reflexivity.
    + exact Hstatus.
Defined.

(** C3 as it is written fails: the data file is there for the first pass
    and gone for the second.  The run reaches the loop and sends three
    messages; the [FileNotFoundError] of the second pass is raised inside
    the loop, the generator answers it with [sys.exit(1)], the client is
    released once, and the exit status is 1, not 0. *)
Lemma exit_inside_the_loop_keeps_its_status :
  reaches_streaming vanishing_world "unknown_topic" 0
  /\ fst (for_messages vanishing_world 10 10 the_producer "unknown_topic" 0
            (clock vanishing_world 0) new_generator 0
            (streaming_state "unknown_topic" 0))
     = Raise (system_exit 1)
  /\ count is_send_call (events (snd (run vanishing_world 10))) = 3%nat
  /\ count is_close (events (snd (run vanishing_world 10))) = 1%nat
  /\ exit_status (fst (run vanishing_world 10)) = Some 1
  /\ exit_status (fst (run vanishing_world 10)) <> Some 0.
Proof.
  split; [repeat split|]. vm_compute. repeat split. discriminate.
Qed.

(** *** The missing data file *)

Lemma py_int_cases (x : str_or_int) :
  (exists z, py_int x = Return z)
  \/ py_int x = Raise (new_exn ValueError "invalid literal for int() with base 10").
Proof.
  destruct x as [s|z]; simpl; [|eauto].
  destruct (int_of_str s); eauto.
Qed.

Lemma run_missing_file (w : world) (fuel : nat) :
  exists_at_startup w (DATA_FILE w) = false ->
  run w fuel =
    match verify_services_result w with
    | Return _ =>
        match py_int (interval_setting w) with
        | Return interval_secs =>
            (Raise (system_exit 1),
             after_events
               [Log Error (MsgDataFileNotFound (DATA_FILE w));
                Log Info (MsgInterval interval_secs);
                Log Info (MsgTopic (topic_setting w)); Log Info MsgStart]
               initial_state)
        | Raise e =>
            (Raise e,
             after_events [Log Info (MsgTopic (topic_setting w)); Log Info MsgStart]
               initial_state)
        | Pending =>
            (Pending,
             after_events [Log Info (MsgTopic (topic_setting w)); Log Info MsgStart]
               initial_state)
        end
    | Raise e => (Raise e, after_events [Log Info MsgStart] initial_state)
    | Pending => (Pending, after_events [Log Info MsgStart] initial_state)
    end.
Proof.
  intros Hex.
  unfold run, main, verify_services, get_kafka_topic, get_message_interval.
  fold (interval_setting w). fold (topic_setting w).
  unfold bind at 1. rewrite log_eq.
  unfold bind at 1. unfold lift at 1.
  destruct (verify_services_result w) as [[]|e|]; try reflexivity.
  unfold bind at 1. unfold bind at 1. rewrite log_eq. unfold ret at 1.
  unfold bind at 1. unfold bind at 1. unfold bind at 1. unfold lift at 1.
  destruct (py_int (interval_setting w)) as [interval_secs|e|]; try reflexivity.
  rewrite log_eq. unfold ret at 1.
  unfold bind at 1. rewrite Hex. reflexivity.
Qed.

(** C4.  When the data file does not exist as [main] checks, no run calls
    [send]; when moreover the services are there, the exit status is 1;
    and when the interval is an integer too, [main] ends in the
    [sys.exit(1)] that follows the report of the missing data file,
    before a client is asked for. *)
Theorem missing_data_file_exits_1 (w : world) (fuel : nat) :
  exists_at_startup w (DATA_FILE w) = false ->
  count is_send_call (events (snd (run w fuel))) = O
  /\ (verify_services_result w = Return tt ->
      exit_status (fst (run w fuel)) = Some 1)
  /\ (forall interval_secs : Z,
         verify_services_result w = Return tt ->
         py_int (interval_setting w) = Return interval_secs ->
         run w fuel
         = (Raise (system_exit 1),
            after_events
              [Log Error (MsgDataFileNotFound (DATA_FILE w));
               Log Info (MsgInterval interval_secs);
               Log Info (MsgTopic (topic_setting w)); Log Info MsgStart]
              initial_state)).
Proof.
  intros Hex. rewrite (run_missing_file w fuel Hex).
  split; [|split].
  - destruct (verify_services_result w) as [[]|e|]; try reflexivity.
    destruct (py_int (interval_setting w)) as [interval_secs|e|]; reflexivity.
  - intros ->.
    destruct (py_int_cases (interval_setting w)) as [[z ->]| ->]; reflexivity.
  - intros interval_secs -> ->. reflexivity.
Qed.

Lemma missing_data_file_exits_1_witness :
  count is_send_call (events (snd (run missing_world 10))) = O
  /\ exit_status (fst (run missing_world 10)) = Some 1.
Proof.
  destruct (missing_data_file_exits_1 missing_world 10 eq_refl) as (H1 & H2 & _).
  split; [exact H1 | exact (H2 eq_refl)].
Defined.

(** *** Throughput reports *)





Example throughput_reports_of_a_run :
  List.filter is_progress_report (events (snd (run sample_world 21)))
  = flat_map
      (fun c =>
         Log Info (MsgSent c "unknown_topic" 1 (record (1 + (c - 1) mod 3)))
         :: (if c mod 10 =? 0
             then [Log Info (MsgThroughput c (inject_Z (2 * c))
                               (inject_Z c / inject_Z (2 * c)))]
             else []))
      (map Z.of_nat (seq 1 21)).
Proof. vm_compute. reflexivity. Qed.

(** With a clock that stands still the tenth message has no report: the
    division raises, and the handler for [Exception] ends the run. *)
Example no_report_without_elapsed_time :
  let w := {| module_file := module_file sample_world;
              environ := environ sample_world;
              verify_services_result := Return tt;
              exists_at_startup := fun _ => true;
              create_kafka_producer_result := Return true;
              create_kafka_topic_result := fun _ => Return tt;
              disk := disk sample_world;
              send_result := fun _ => Return tt;
              clock := fun _ => 0%Q;
              sleep_result := fun _ => Return tt |} in
  let (o, st) := run w 25 in
  exit_status o = Some 0
  /\ count is_send_call (events st) = 10%nat
  /\ hd_error (trace (after_events [] st)) = Some (Log Info MsgEnd)
  /\ In (Log Error (MsgProductionError
                      (new_exn ZeroDivisionError "float division by zero")))
        (events st).
Proof. vm_compute. repeat split. tauto. Qed.

(* ================================================================== *)
(** ** Iterations in which nothing fails *)
(* ================================================================== *)








Lemma events_after_open (w : world) (st : state) :
  events (after_open w st) = events st ++ [Open (DATA_FILE w)].
Proof. reflexivity. Qed.

Section happy_path.
Variable w : world.
Variable l : list json.
Hypothesis stable :
  forall k : nat, disk w k (DATA_FILE w) = Present (Decodes (JList l)).
Hypothesis nonempty : l <> [].



End happy_path.

(** *** What [replay] yields *)





(** *** Iterations that fail *)




(** *** Runs of the driver *)

















(** *** Start-up *)

(** The start-up of [main], step by step. *)
Lemma startup_cases (w : world) (fuel : nat) :
  (exists interval_secs : Z, reaches_streaming w (topic_setting w) interval_secs)
  \/ (exists (o : outcome unit) (reports : list event),
         run w fuel = (o, after_events reports initial_state)
         /\ o <> Return tt
         /\ Forall (fun ev => exists lvl m, ev = Log lvl m) reports).
Proof.
  set (logged := fun st : state =>
                   exists reports : list event,
                     st = after_events reports initial_state
                     /\ Forall (fun ev => exists lvl m, ev = Log lvl m) reports).
  assert (logged initial_state) as H0 by (exists []; split; [reflexivity | constructor]).
  assert (forall st lvl m, logged st -> logged (after_events [Log lvl m] st)) as Hlog.
  { intros st lvl m (reports & -> & Hr). exists (Log lvl m :: reports).
    split; [reflexivity|]. constructor; eauto. }
  assert (forall (o : outcome unit) (st : state),
             o <> Return tt -> logged st ->
             exists (o' : outcome unit) (reports' : list event),
               (o, st) = (o', after_events reports' initial_state)
               /\ o' <> Return tt
               /\ Forall (fun ev => exists lvl m, ev = Log lvl m) reports') as Hfail
    by (intros o st Ho (reports & -> & Hr); exists o, reports; auto).
  unfold run, main, verify_services, get_kafka_topic, get_message_interval,
    create_kafka_producer, create_kafka_topic, try_except.
  fold (interval_setting w). fold (topic_setting w).
  unfold bind at 1. rewrite log_eq.
  unfold bind at 1. unfold lift at 1.
  destruct (verify_services_result w) as [[]|e|] eqn:Hv;
    [|right; apply Hfail; [discriminate | repeat apply Hlog; exact H0] ..].
  unfold bind at 1. unfold bind at 1. rewrite log_eq. unfold ret at 1.
  unfold bind at 1. unfold bind at 1. unfold bind at 1. unfold lift at 1.
  destruct (py_int (interval_setting w)) as [interval_secs|e|] eqn:Hi;
    [|right; apply Hfail; [discriminate | repeat apply Hlog; exact H0] ..].
  rewrite log_eq. unfold ret at 1.
  unfold bind at 1.
  destruct (exists_at_startup w (DATA_FILE w)) eqn:He; cbn [negb].
  2:{ right. unfold bind at 1. rewrite log_eq. unfold sys_exit, raise.
      apply Hfail; [discriminate | repeat apply Hlog; exact H0]. }
  unfold ret at 1.
  unfold bind at 1. unfold bind at 1. unfold lift at 1.
  destruct (create_kafka_producer_result w) as [[|]|e|] eqn:Hp;
    [| |right; apply Hfail; [discriminate | repeat apply Hlog; exact H0] ..].
  2:{ right. unfold ret at 1. unfold bind at 1. rewrite log_eq.
      unfold sys_exit, raise.
      apply Hfail; [discriminate | repeat apply Hlog; exact H0]. }
  unfold ret at 1.
  unfold bind at 1. unfold lift at 1.
  destruct (create_kafka_topic_result w (topic_setting w)) as [[]|e|] eqn:Hc.
  - left. exists interval_secs. repeat split; assumption.
  - right. cbn [find_handler].
    destruct (isinstance e Exception).
    + unfold bind at 1. rewrite log_eq. unfold sys_exit, raise.
      apply Hfail; [discriminate | repeat apply Hlog; exact H0].
    + apply Hfail; [discriminate | repeat apply Hlog; exact H0].
  - right. apply Hfail; [discriminate | repeat apply Hlog; exact H0].
Qed.

Lemma count_logs (f : event -> bool) (reports : list event) :
  (forall lvl m, f (Log lvl m) = false) ->
  Forall (fun ev => exists lvl m, ev = Log lvl m) reports ->
  count f reports = O.
Proof.
  intros Hf. induction 1 as [|ev reports (lvl & m & ->) _ IH]; [reflexivity|].
  simpl. rewrite Hf. exact IH.
Qed.

(** X6.  Nothing is published before the start-up has succeeded.  If a
    run calls [send], opens the data file, sleeps or releases the client,
    or if [main] returns, then the services were verified, the interval
    was an integer, the data file existed, a client was obtained and the
    topic was assured. *)
Theorem startup_gates_the_loop (w : world) (fuel : nat) :
  count is_send_call (events (snd (run w fuel))) <> O
  \/ count is_open (events (snd (run w fuel))) <> O
  \/ count is_sleep (events (snd (run w fuel))) <> O
  \/ count is_close (events (snd (run w fuel))) <> O
  \/ fst (run w fuel) = Return tt ->
  exists interval_secs : Z, reaches_streaming w (topic_setting w) interval_secs.
Proof.
  intros H.
  destruct (startup_cases w fuel) as [Hok|(o & reports & Hrun & Ho & Hlogs)];
    [exact Hok|].
  exfalso. rewrite Hrun in H. cbn [fst snd] in H. unfold events in H.
  rewrite !count_rev in H. cbn [after_events trace initial_state] in H.
  rewrite app_nil_r in H.
  rewrite !(count_logs _ reports) in H by (auto; reflexivity).
  destruct H as [H|[H|[H|[H|H]]]]; congruence.
Qed.

Lemma startup_gates_the_loop_witness :
  exists interval_secs : Z,
    reaches_streaming interrupted_world (topic_setting interrupted_world)
      interval_secs.
Proof.
  refine (startup_gates_the_loop interrupted_world 10 _).
  left. vm_compute. discriminate.
Defined.

(** X7.  The client is released at most once, in every run. *)
Theorem client_released_at_most_once (w : world) (fuel : nat) :
  (count is_close (events (snd (run w fuel))) <= 1)%nat.
Proof.
  destruct (startup_cases w fuel) as [[i Hok]|(o & reports & Hrun & Ho & Hlogs)].
  - rewrite (main_reaches_streaming w fuel _ i Hok), stream_cases.
    pose proof (for_messages_no_close w fuel the_producer (topic_setting w) i
                  (clock w 0) (streaming_state (topic_setting w) i)) as Hc.
    destruct (for_messages w fuel fuel the_producer (topic_setting w) i (clock w 0)
                new_generator 0 (streaming_state (topic_setting w) i))
      as [[[]|e|] st1]; cbn [snd] in Hc; simpl in Hc.
    + cbn [snd]. unfold events. rewrite count_rev. simpl. lia.
    + destruct (isinstance e KeyboardInterrupt);
        [|destruct (isinstance e Exception)];
        cbn [snd]; unfold events; rewrite count_rev; simpl; lia.
    + cbn [snd]. unfold events. rewrite count_rev. lia.
  - rewrite Hrun. cbn [snd]. unfold events.
    rewrite count_rev. cbn [after_events trace initial_state].
    rewrite app_nil_r, (count_logs _ reports) by (auto; reflexivity). lia.
Qed.

(** X8.  When no client is obtained, [main] ends with status 3.  With the
    services verified, an integer interval and the data file in place, a
    falsy result of [create_kafka_producer] is reported and followed by
    [sys.exit(3)]; the topic is not looked at and nothing is sent. *)
Theorem no_client_exits_3 (w : world) (fuel : nat) (interval_secs : Z) :
  verify_services_result w = Return tt ->
  py_int (interval_setting w) = Return interval_secs ->
  exists_at_startup w (DATA_FILE w) = true ->
  create_kafka_producer_result w = Return false ->
  run w fuel
  = (Raise (system_exit 3),
     after_events
       [Log Error MsgProducerFailed; Log Info (MsgInterval interval_secs);
        Log Info (MsgTopic (topic_setting w)); Log Info MsgStart]
       initial_state)
  /\ exit_status (fst (run w fuel)) = Some 3.
Proof.
  intros Hv Hi He Hp.
  assert (run w fuel
          = (Raise (system_exit 3),
             after_events
               [Log Error MsgProducerFailed; Log Info (MsgInterval interval_secs);
                Log Info (MsgTopic (topic_setting w)); Log Info MsgStart]
               initial_state)) as Hrun.
  { unfold run, main, verify_services, get_kafka_topic, get_message_interval,
      create_kafka_producer.
    fold (interval_setting w). fold (topic_setting w).
    unfold bind at 1. rewrite log_eq.
    unfold bind at 1. unfold lift at 1. rewrite Hv.
    unfold bind at 1. unfold bind at 1. rewrite log_eq. unfold ret at 1.
    unfold bind at 1. unfold bind at 1. unfold bind at 1. unfold lift at 1.
    rewrite Hi, log_eq. unfold ret at 1.
    unfold bind at 1. rewrite He. cbn [negb]. unfold ret at 1.
    unfold bind at 1. unfold bind at 1. unfold lift at 1. rewrite Hp.
    reflexivity. }
  rewrite Hrun. split; reflexivity.
Qed.

Lemma no_client_exits_3_witness :
  exit_status (fst (run no_client_world 10)) = Some 3.
Proof.
  refine (proj2 (no_client_exits_3 no_client_world 10 0 _ _ _ _));
    reflexivity.
Defined.

(** X9.  When the topic cannot be assured, [main] ends with status 1 and
    leaves the client it obtained unreleased.  With the start-up fine up
    to the client, an instance of [Exception] raised by
    [create_kafka_topic] is reported and followed by [sys.exit(1)]: the
    handler is outside the [try] whose [finally] releases the client, so
    there is no release; an exception of another kind leaves [main] as it
    is. *)
Theorem topic_failure_exits_1 (w : world) (fuel : nat) (interval_secs : Z)
  (e : exn) :
  verify_services_result w = Return tt ->
  py_int (interval_setting w) = Return interval_secs ->
  exists_at_startup w (DATA_FILE w) = true ->
  create_kafka_producer_result w = Return true ->
  create_kafka_topic_result w (topic_setting w) = Raise e ->
  (isinstance e Exception = true ->
   run w fuel
   = (Raise (system_exit 1),
      after_events
        [Log Error (MsgTopicFailed (topic_setting w) e);
         Log Info (MsgInterval interval_secs);
         Log Info (MsgTopic (topic_setting w)); Log Info MsgStart]
        initial_state)
   /\ exit_status (fst (run w fuel)) = Some 1)
  /\ (isinstance e Exception = false -> fst (run w fuel) = Raise e)
  /\ count is_close (events (snd (run w fuel))) = O
  /\ count is_send_call (events (snd (run w fuel))) = O.
Proof.
  intros Hv Hi He Hp Hc.
  assert (run w fuel
          = if isinstance e Exception
            then (Raise (system_exit 1),
                  after_events
                    [Log Error (MsgTopicFailed (topic_setting w) e);
                     Log Info (MsgInterval interval_secs);
                     Log Info (MsgTopic (topic_setting w)); Log Info MsgStart]
                    initial_state)
            else (Raise e,
                  after_events
                    [Log Info (MsgInterval interval_secs);
                     Log Info (MsgTopic (topic_setting w)); Log Info MsgStart]
                    initial_state)) as Hrun.
  { unfold run, main, verify_services, get_kafka_topic, get_message_interval,
      create_kafka_producer, create_kafka_topic, try_except.
    fold (interval_setting w). fold (topic_setting w).
    unfold bind at 1. rewrite log_eq.
    unfold bind at 1. unfold lift at 1. rewrite Hv.
    unfold bind at 1. unfold bind at 1. rewrite log_eq. unfold ret at 1.
    unfold bind at 1. unfold bind at 1. unfold bind at 1. unfold lift at 1.
    rewrite Hi, log_eq. unfold ret at 1.
    unfold bind at 1. rewrite He. cbn [negb]. unfold ret at 1.
    unfold bind at 1. unfold bind at 1. unfold lift at 1. rewrite Hp.
    unfold ret at 1.
    unfold bind at 1. unfold lift at 1. rewrite Hc. cbn [find_handler].
    destruct (isinstance e Exception); reflexivity. }
  rewrite Hrun.
  destruct (isinstance e Exception); repeat split; try reflexivity;
    intros; discriminate.
Qed.

Lemma topic_failure_exits_1_witness :
  exit_status (fst (run no_topic_world 10)) = Some 1
  /\ count is_close (events (snd (run no_topic_world 10))) = O.
Proof.
  destruct (topic_failure_exits_1 no_topic_world 10 0
              (new_exn KafkaError "TopicAuthorizationFailedError"))
    as (H1 & _ & H3 & _); try reflexivity.
  split; [exact (proj2 (H1 eq_refl)) | exact H3].
Defined.



(** *** More on the generator *)

Lemma take_first_pass (w : world) (file_path : path) (fuel i : nat)
  (st : state) (l : list json) :
  disk w (n_open st) (DATA_FILE w) = Present (Decodes (JList l)) ->
  (1 <= fuel)%nat -> (1 <= i <= length l)%nat ->
  take_messages w file_path fuel i [] st
  = (Return (firstn i l, skipn i l), after_open w st).
Proof.
  intros Hdisk Hfuel Hi.
  destruct i as [|i]; [lia|]. destruct fuel as [|fuel]; [lia|].
  destruct l as [|x rest]; [simpl in Hi; lia|].
  cbn [take_messages]. unfold bind at 1.
  rewrite next_fresh, (load_list w file_path st (x :: rest) Hdisk).
  rewrite next_held. unfold bind.
  rewrite take_held by (simpl in Hi; lia). reflexivity.
Qed.

(** [k] whole passes over a file that may change between them. *)
Lemma take_varied_passes (w : world) (file_path : path) (fuel : nat)
  (content : nat -> list json) :
  (1 <= fuel)%nat ->
  forall (k : nat) (st : state),
    (forall j, (j < k)%nat ->
               disk w (n_open st + j) (DATA_FILE w)
               = Present (Decodes (JList (content (n_open st + j)%nat)))
               /\ content (n_open st + j)%nat <> []) ->
    take_messages w file_path fuel
      (length (concat (map content (seq (n_open st) k)))) [] st
    = (Return (concat (map content (seq (n_open st) k)), []), after_opens w k st).
Proof.
  intros Hfuel. induction k as [|k IH]; intros st Hgood; [reflexivity|].
  destruct (Hgood O ltac:(lia)) as [Hdisk Hne]. rewrite Nat.add_0_r in Hdisk, Hne.
  assert (1 <= length (content (n_open st)))%nat as Hlen
    by (destruct (content (n_open st)); [congruence | simpl; lia]).
  cbn [seq map concat]. rewrite length_app, take_app.
  rewrite (take_first_pass w file_path fuel _ st _ Hdisk Hfuel) by lia.
  rewrite firstn_all, skipn_all.
  change (S (n_open st)) with (n_open (after_open w st)).
  rewrite IH; [reflexivity|].
  intros j Hj. cbn [after_open n_open].
  replace (S (n_open st) + j)%nat with (n_open st + S j)%nat by lia.
  apply Hgood. lia.
Qed.

(** X11.  Every pass yields the file as it is when the pass starts.  If
    the data file holds the non-empty list [content n] at its [n]-th
    opening, for the next [k] openings, then the calls of [next] yield
    the lists of these openings one after the other, each in its order,
    and the file is opened exactly [k] times. *)
Theorem passes_follow_the_file (w : world) (file_path : path) (fuel k : nat)
  (content : nat -> list json) (st : state) :
  (1 <= fuel)%nat ->
  (forall j, (j < k)%nat ->
             disk w (n_open st + j) (DATA_FILE w)
             = Present (Decodes (JList (content (n_open st + j)%nat)))
             /\ content (n_open st + j)%nat <> []) ->
  take_messages w file_path fuel
    (length (concat (map content (seq (n_open st) k)))) new_generator st
  = (Return (concat (map content (seq (n_open st) k)), []), after_opens w k st).
Proof. intros Hfuel Hgood. apply take_varied_passes; assumption. Qed.

Lemma passes_follow_the_file_witness :
  take_messages growing_world [] 1 6 new_generator initial_state
  = (Return ([record 0] ++ [record 0; record 1]
             ++ [record 0; record 1; record 2], []),
     after_opens growing_world 3 initial_state).
Proof.
  refine (passes_follow_the_file growing_world [] 1 3
            (fun k => map (fun i => record (Z.of_nat i)) (seq 0 (S k)))
            initial_state _ _).
  - lia.
  - intros j Hj. split; [reflexivity | discriminate].
Defined.

(** X12.  The generator waits through empty passes.  If the data file
    holds the empty list at the next [e] openings and a list that starts
    with [x] at the one after them, a call of [next] with fuel for more
    than [e] passes yields [x], having opened the file [e + 1] times and
    reported nothing. *)
Theorem empty_passes_are_skipped (w : world) (file_path : path) (fuel e : nat)
  (x : json) (rest : list json) :
  forall st : state,
    (forall j, (j < e)%nat ->
               disk w (n_open st + j) (DATA_FILE w) = Present (Decodes (JList []))) ->
    disk w (n_open st + e) (DATA_FILE w) = Present (Decodes (JList (x :: rest))) ->
    (e < fuel)%nat ->
    generate_messages_next w file_path fuel new_generator st
    = (Return (x, rest), after_opens w (S e) st).
Proof.
  revert fuel. induction e as [|e IH]; intros fuel st Hempty Hdata Hfuel.
  - destruct fuel as [|fuel]; [lia|]. unfold new_generator.
    rewrite Nat.add_0_r in Hdata.
    rewrite next_fresh, (load_list w file_path st (x :: rest) Hdata).
    apply next_held.
  - destruct fuel as [|fuel]; [lia|]. unfold new_generator.
    pose proof (Hempty O ltac:(lia)) as H0. rewrite Nat.add_0_r in H0.
    rewrite next_fresh, (load_list w file_path st [] H0).
    change (after_opens w (S (S e)) st) with (after_opens w (S e) (after_open w st)).
    apply IH.
    + intros j Hj. cbn [after_open n_open].
      replace (S (n_open st) + j)%nat with (n_open st + S j)%nat by lia.
      apply Hempty. lia.
    + cbn [after_open n_open].
      replace (S (n_open st) + e)%nat with (n_open st + S e)%nat by lia.
      exact Hdata.
    + lia.
Qed.

Lemma empty_passes_are_skipped_witness :
  generate_messages_next filling_world [] 3 new_generator initial_state
  = (Return (record 9, []), after_opens filling_world 3 initial_state).
Proof.
  refine (empty_passes_are_skipped filling_world [] 3 2 (record 9) [] initial_state
            _ _ _).
  - intros j Hj. destruct j as [|[|j]]; [reflexivity | reflexivity | lia].
  - reflexivity.
  - lia.
Defined.



(** X14.  A failure of a later pass comes after the earlier passes were
    yielded in full.  If the data file holds a non-empty list at each of
    the next [k] openings and is in a failure mode at the one after them,
    then the calls of [next] yield the [k] lists, and the call after them
    yields nothing and raises [SystemExit] with the status of the mode. *)
Theorem failure_after_good_passes (w : world) (file_path : path) (fuel k : nat)
  (content : nat -> list json) (st : state) (m : failure_mode) :
  (1 <= fuel)%nat ->
  (forall j, (j < k)%nat ->
             disk w (n_open st + j) (DATA_FILE w)
             = Present (Decodes (JList (content (n_open st + j)%nat)))
             /\ content (n_open st + j)%nat <> []) ->
  failure_mode_of (disk w (n_open st + k) (DATA_FILE w)) = Some m ->
  let yielded := concat (map content (seq (n_open st) k)) in
  take_messages w file_path fuel (length yielded) new_generator st
  = (Return (yielded, []), after_opens w k st)
  /\ fst (take_messages w file_path fuel (length yielded + 1) new_generator st)
     = Raise (system_exit (failure_status m)).
Proof.
  intros Hfuel Hgood Hmode yielded.
  assert (take_messages w file_path fuel (length yielded) new_generator st
          = (Return (yielded, []), after_opens w k st)) as Hpasses
    by (apply take_varied_passes; assumption).
  split; [exact Hpasses|].
  unfold new_generator in *. rewrite take_app, Hpasses.
  cbn [take_messages]. unfold bind at 1.
  destruct fuel as [|fuel]; [lia|]. rewrite next_fresh.
  rewrite <- (n_open_after_opens w) in Hmode.
  destruct (disk w (n_open (after_opens w k st)) (DATA_FILE w)) as [|e|[v|e]] eqn:Hdisk;
    simpl in Hmode.
  - injection Hmode as <-.
    rewrite (load_raises w file_path _
               (new_exn FileNotFoundError "No such file or directory"))
      by (rewrite Hdisk; reflexivity).
    reflexivity.
  - rewrite (load_raises w file_path _ e) by (rewrite Hdisk; reflexivity).
    destruct (isinstance e FileNotFoundError); [discriminate|].
    destruct (isinstance e JSONDecodeError); [discriminate|].
    destruct (isinstance e Exception); [|discriminate].
    injection Hmode as <-. reflexivity.
  - destruct (isinstance_list v) eqn:Hv; [discriminate|]. injection Hmode as <-.
    rewrite (load_raises w file_path _
               (new_exn ValueError "Expected a list of JSON objects"))
      by (rewrite Hdisk; apply non_list_raises; exact Hv).
    reflexivity.
  - rewrite (load_raises w file_path _ e) by (rewrite Hdisk; reflexivity).
    destruct (isinstance e FileNotFoundError); [discriminate|].
    destruct (isinstance e JSONDecodeError); [injection Hmode as <-; reflexivity|].
    destruct (isinstance e Exception); [|discriminate].
    injection Hmode as <-. reflexivity.
Qed.

Lemma failure_after_good_passes_witness :
  fst (take_messages vanishing_world [] 1 4 new_generator initial_state)
  = Raise (system_exit 1).
Proof.
  refine (proj2 (failure_after_good_passes vanishing_world [] 1 1
                   (fun _ => [record 1; record 2; record 3]) initial_state
                   FileMissing _ _ _)).
  - lia.
  - intros j Hj. assert (j = O) as -> by lia. split; [reflexivity | discriminate].
  - reflexivity.
Defined.

(** *** The payload *)

Lemma printable_str (s : string) :
  forallb printable_char (list_ascii_of_string s) = true -> Forall printable (str s).
Proof.
  unfold str. induction s as [|a s IH]; simpl; intros H; [constructor|].
  apply andb_prop in H as [Ha Hs]. constructor; [|apply IH; exact Hs].
  unfold printable_char in Ha.
  apply andb_prop in Ha as [H1%Z.leb_le H2%Z.leb_le]. split; assumption.
Qed.

Lemma printable_digits (d : Decimal.uint) :
  forallb printable_char (list_ascii_of_string (NilEmpty.string_of_uint d)) = true.
Proof. induction d; simpl; auto. Qed.

Lemma printable_int_repr (z : Z) : Forall printable (int_repr z).
Proof.
  unfold int_repr. apply printable_str.
  destruct (Z.to_int z) as [d|d]; simpl.
  - destruct d; try reflexivity; apply (printable_digits (_ d)).
  - destruct d; try reflexivity; apply (printable_digits (_ d)).
Qed.

Lemma printable_hexdigit (x : Z) : printable (hexdigit (Z.land x 15)).
Proof.
  change 15 with (Z.ones 4). rewrite Z.land_ones by lia.
  pose proof (Z.mod_pos_bound x (2 ^ 4) ltac:(lia)) as Hb.
  unfold hexdigit, printable. destruct (Z.ltb_spec (x mod 2 ^ 4) 10); lia.
Qed.

Lemma printable_u_escape (n : Z) : Forall printable (u_escape n).
Proof.
  unfold u_escape.
  repeat (constructor; [first [apply printable_hexdigit | unfold printable; lia]|]).
  constructor.
Qed.

Lemma printable_escape_ascii_char (c : Z) : Forall printable (escape_ascii_char c).
Proof.
  assert (forall a b : Z, printable a -> printable b -> Forall printable [a; b]) as two
    by (intros a b Ha Hb; constructor; [exact Ha | constructor; [exact Hb | constructor]]).
  unfold escape_ascii_char.
  destruct (c =? 92); [apply two; unfold printable; lia|].
  destruct (c =? 34); [apply two; unfold printable; lia|].
  destruct ((32 <=? c) && (c <=? 126)) eqn:Hr.
  { apply andb_prop in Hr as [H1%Z.leb_le H2%Z.leb_le].
    constructor; [split; assumption | constructor]. }
  destruct (c =? 8); [apply two; unfold printable; lia|].
  destruct (c =? 12); [apply two; unfold printable; lia|].
  destruct (c =? 10); [apply two; unfold printable; lia|].
  destruct (c =? 13); [apply two; unfold printable; lia|].
  destruct (c =? 9); [apply two; unfold printable; lia|].
  destruct (c <? 65536); [apply printable_u_escape|].
  apply Forall_app; split; apply printable_u_escape.
Qed.

Lemma printable_encode_basestring_ascii (s : pystr) :
  Forall printable (encode_basestring_ascii s).
Proof.
  unfold encode_basestring_ascii.
  apply Forall_app; split; [repeat constructor; lia|].
  apply Forall_app; split; [|repeat constructor; lia].
  induction s as [|c s IH]; simpl; [constructor|].
  apply Forall_app; split; [apply printable_escape_ascii_char | exact IH].
Qed.

Lemma printable_join (sep : pystr) (parts : list pystr) :
  Forall printable sep -> Forall (Forall printable) parts ->
  Forall printable (join sep parts).
Proof.
  intros Hsep Hparts. induction Hparts as [|p ps Hp Hps IH]; simpl; [constructor|].
  destruct ps as [|q ps]; [exact Hp|].
  apply Forall_app; split; [exact Hp|].
  apply Forall_app; split; [exact Hsep | exact IH].
Qed.

Lemma printable_floatstr (r : string) :
  forallb printable_char (list_ascii_of_string r) = true ->
  Forall printable (floatstr r).
Proof.
  intros Hr. unfold floatstr.
  destruct (String.eqb r "nan"); [apply printable_str; reflexivity|].
  destruct (String.eqb r "inf"); [apply printable_str; reflexivity|].
  destruct (String.eqb r "-inf"); [apply printable_str; reflexivity|].
  apply printable_str. exact Hr.
Qed.

Lemma printable_json_dumps (x : json) :
  plain x = true -> Forall printable (json_dumps x).
Proof.
  assert (forall c : Z, 32 <= c <= 126 -> Forall printable [c]) as one
    by (intros; repeat constructor; lia).
  induction x as [ | b | z | r | s | l IH | items IH ] using json_nested_ind;
    cbn [json_dumps plain]; intros Hplain.
  - apply printable_str. reflexivity.
  - destruct b; apply printable_str; reflexivity.
  - apply printable_int_repr.
  - apply printable_floatstr. exact Hplain.
  - apply printable_encode_basestring_ascii.
  - apply Forall_app; split; [apply one; lia|].
    apply Forall_app; split; [|apply one; lia].
    apply printable_join; [apply printable_str; reflexivity|].
    induction IH as [|v l Hv Hl IHl]; cbn [map]; [constructor|].
    cbn [forallb] in Hplain. apply andb_prop in Hplain as [H1 H2].
    constructor; auto.
  - apply Forall_app; split; [apply one; lia|].
    apply Forall_app; split; [|apply one; lia].
    apply printable_join; [apply printable_str; reflexivity|].
    induction IH as [|kv items Hkv Hitems IHitems]; cbn [map]; [constructor|].
    cbn [forallb] in Hplain. apply andb_prop in Hplain as [H1 H2].
    constructor; auto.
    apply Forall_app; split; [apply printable_encode_basestring_ascii|].
    apply Forall_app; split; [apply printable_str; reflexivity | auto].
Qed.

Lemma encode_utf8_ascii (s : pystr) :
  Forall printable s -> encode_utf8 s = Return s.
Proof.
  induction 1 as [|c s Hc Hs IH]; [reflexivity|].
  cbn [encode_utf8]. unfold printable in Hc. unfold utf8_char.
  destruct (Z.ltb_spec c 0); [lia|].
  destruct (Z.ltb_spec c 128); [|lia].
  rewrite IH. reflexivity.
Qed.

(** X15.  A payload is one line of printable ASCII.  For every record
    whose floats print in ASCII the serializer returns the text of
    [json.dumps] byte for character, and every byte is between space and
    tilde: strings are escaped, so no line break, control character or
    byte above 127 occurs in a payload. *)
Theorem payload_is_printable_ascii (x : json) :
  plain x = true ->
  value_serializer x = Return (json_dumps x)
  /\ Forall printable (json_dumps x).
Proof.
  intros Hplain. pose proof (printable_json_dumps x Hplain) as Hp.
  split; [apply encode_utf8_ascii; exact Hp | exact Hp].
Qed.

Lemma payload_is_printable_ascii_witness :
  value_serializer (JDict [(str "text", JStr [233; 10; 128512]); (str "x", JFloat "1.5")])
  = Return (json_dumps (JDict [(str "text", JStr [233; 10; 128512]);
                               (str "x", JFloat "1.5")])).
Proof.
  exact (proj1 (payload_is_printable_ascii
                  (JDict [(str "text", JStr [233; 10; 128512]); (str "x", JFloat "1.5")])
                  eq_refl)).
Defined.

(** *** The interval, written in decimal *)














(** [int] takes blanks around the number, a plus sign and underscores
    between digits, and refuses a text without digits. *)
Example int_of_str_forms :
  int_of_str " 1_000 " = Some 1000 /\ int_of_str "+7" = Some 7
  /\ int_of_str "-0" = Some 0 /\ int_of_str EmptyString = None
  /\ int_of_str "1__0" = None /\ int_of_str "_1" = None
  /\ int_of_str "1.5" = None /\ int_of_str "- 1" = None.
Proof. repeat split. Qed.

(** *** The accounting of the loop *)

Lemma count_In (f : event -> bool) (ev : event) (l : list event) :
  In ev l -> f ev = true -> (1 <= count f l)%nat.
Proof.
  induction l as [|a l IH]; simpl; [contradiction|].
  intros [->|H] Hf; [rewrite Hf; lia|].
  specialize (IH H Hf). destruct (f a); lia.
Qed.

Lemma no_report_in (evs : list event) lvl c t lat m :
  count is_sent_report evs = O -> ~ In (Log lvl (MsgSent c t lat m)) evs.
Proof.
  intros Hc Hin. pose proof (count_In is_sent_report _ _ Hin eq_refl). lia.
Qed.

Lemma next_accounting (w : world) (file_path : path) (fuel : nat) (g : generator)
  (st : state) :
  exists evs,
    trace (snd (generate_messages_next w file_path fuel g st)) = evs ++ trace st
    /\ n_time (snd (generate_messages_next w file_path fuel g st)) = n_time st
    /\ count is_send_call evs = O /\ count is_sent_report evs = O
    /\ count is_sleep evs = O.
Proof.
  destruct (next_shape w file_path fuel g st) as (k & reports & -> & _ & Hrep).
  simpl. rewrite n_time_after_opens, trace_after_opens.
  exists (reports ++ repeat (Open (DATA_FILE w)) k).
  rewrite <- app_assoc. split; [reflexivity|]. split; [reflexivity|].
  rewrite !count_app, !count_repeat_open. simpl.
  destruct Hrep as [->|(m & -> & Hm)]; [simpl; auto|].
  destruct m; simpl in Hm; try contradiction; simpl; auto.
Qed.

Lemma send_accounting (w : world) (p : producer) (topic : string) (v : json)
  (st : state) :
  exists evs,
    trace (snd (producer_send w p topic v st)) = evs ++ trace st
    /\ n_time (snd (producer_send w p topic v st)) = n_time st
    /\ count is_send_call evs = 1%nat /\ count is_sent_report evs = O
    /\ count is_sleep evs = O.
Proof.
  unfold producer_send, bind, next_send, emit, lift. simpl.
  destruct (serializer p v) as [payload| |]; simpl.
  - exists [Transmit topic payload; SendCall topic v]. repeat split.
  - exists [SendCall topic v]. repeat split.
  - exists [SendCall topic v]. repeat split.
Qed.

Lemma sleep_accounting (w : world) (secs : Z) (st : state) :
  exists evs,
    trace (snd (time_sleep w secs st)) = evs ++ trace st
    /\ n_time (snd (time_sleep w secs st)) = n_time st
    /\ count is_send_call evs = O /\ count is_sent_report evs = O
    /\ (count is_sleep evs <= 1)%nat
    /\ (fst (time_sleep w secs st) = Return tt -> count is_sleep evs = 1%nat).
Proof.
  unfold time_sleep. destruct (secs <? 0).
  - exists []. simpl. repeat split; auto. discriminate.
  - unfold bind, next_sleep, emit, lift. simpl.
    exists [Sleep secs]. repeat split; auto.
Qed.

Lemma throughput_accounting (c : Z) (e : Q) (st : state) :
  let report :=
    (if c mod 10 =? 0 then
       throughput <- truediv c e ;;
       log Info (MsgThroughput c e throughput)
     else ret tt) in
  exists evs,
    trace (snd (report st)) = evs ++ trace st
    /\ n_time (snd (report st)) = n_time st
    /\ count is_send_call evs = O /\ count is_sent_report evs = O
    /\ count is_sleep evs = O.
Proof.
  cbn zeta. destruct (c mod 10 =? 0).
  - unfold truediv, bind, log, emit. destruct (Qeq_bool e 0); simpl.
    + exists []. repeat split.
    + eexists [_]. repeat split.
  - exists []. repeat split.
Qed.

(** An iteration that ends before its message is reported. *)
Lemma accounting_before_report (w : world) (topic : string) (n0 : nat) (c0 : Z)
  (evs : list event) :
  count is_sent_report evs = O -> count is_sleep evs = O ->
  (count is_send_call evs <= 1)%nat ->
  accounting_ok w topic n0 c0 evs.
Proof.
  intros Hr Hs Hc. split; [|lia].
  intros lvl c t lat m Hin. exfalso. exact (no_report_in _ _ _ _ _ _ Hr Hin).
Qed.

(** An iteration that reports its message, and the iterations after it. *)
Lemma accounting_after_report (w : world) (topic : string) (n0 : nat) (c0 : Z)
  (x : json) (pre post later : list event) :
  count is_send_call pre = 1%nat -> count is_sent_report pre = O ->
  count is_sleep pre = O ->
  count is_send_call post = O -> count is_sent_report post = O ->
  (count is_sleep post <= 1)%nat ->
  (later = [] \/ (count is_sleep post = 1%nat
                  /\ accounting_ok w topic (n0 + 2) (c0 + 1) later)) ->
  accounting_ok w topic n0 c0
    (later ++ post
     ++ [Log Info (MsgSent (c0 + 1) topic (clock w (n0 + 1) - clock w n0) x)]
     ++ pre).
Proof.
  intros P1 P2 P3 Q1 Q2 Q3 Hlater.
  assert (forall c, c0 + 1 < c ->
                    (n0 + 2 + 2 * Z.to_nat (c - (c0 + 1)) - 1
                     = n0 + 2 * Z.to_nat (c - c0) - 1
                     /\ n0 + 2 + 2 * Z.to_nat (c - (c0 + 1)) - 2
                        = n0 + 2 * Z.to_nat (c - c0) - 2)%nat) as Hidx
    by (intros; lia).
  split.
  - intros lvl c t lat m Hin.
    apply in_app_or in Hin as [Hin|Hin].
    { destruct Hlater as [->|[_ (Ha & _)]]; [contradiction|].
      destruct (Ha _ _ _ _ _ Hin) as (H1 & H2 & H3 & H4).
      destruct (Hidx c H1) as [E1 E2]. rewrite E1, E2 in H4.
      repeat split; auto. lia. }
    apply in_app_or in Hin as [Hin|Hin];
      [exfalso; exact (no_report_in _ _ _ _ _ _ Q2 Hin)|].
    apply in_app_or in Hin as [Hin|Hin];
      [|exfalso; exact (no_report_in _ _ _ _ _ _ P2 Hin)].
    destruct Hin as [[= <- <- <- <- <-]|[]].
    repeat split; try lia.
    replace (Z.to_nat (c0 + 1 - c0)) with 1%nat by lia.
    do 2 f_equal; lia.
  - rewrite !count_app, P1, P2, P3, Q1, Q2. simpl.
    destruct Hlater as [->|[Hs (_ & L1 & L2 & L3)]]; simpl; lia.
Qed.

Ltac app_norm :=
  repeat (progress (cbn [app]; rewrite <- ?app_assoc)); reflexivity.

(** The accounting of the loop, by induction on its iterations. *)
Lemma for_messages_accounting (w : world) (gfuel : nat) (p : producer)
  (topic : string) (interval_secs : Z) (start_time : Q) :
  forall (fuel : nat) (g : generator) (c0 : Z) (st : state),
    exists evs,
      trace (snd (for_messages w gfuel fuel p topic interval_secs start_time g c0 st))
      = evs ++ trace st
      /\ accounting_ok w topic (n_time st) c0 evs.
Proof.
  induction fuel as [|fuel IH]; intros g c0 st.
  { exists []. split; [reflexivity|]. apply accounting_before_report; simpl; lia. }
  cbn [for_messages]. unfold bind at 1.
  destruct (next_accounting w (DATA_FILE w) gfuel g st)
    as (evs1 & Ht1 & Hn1 & A1 & A2 & A3).
  destruct (generate_messages_next w (DATA_FILE w) gfuel g st) as [[[x g']| |] st1];
    cbn [fst snd] in Hn1, Ht1;
    [|exists evs1; split; [exact Ht1 | apply accounting_before_report; lia] ..].
  unfold bind at 1. rewrite time_time_eq. cbn beta iota.
  unfold bind at 1.
  destruct (send_accounting w p topic x (after_time st1))
    as (evs3 & Ht3 & Hn3 & B1 & B2 & B3).
  destruct (producer_send w p topic x (after_time st1)) as [[[]| |] st3];
    cbn [fst snd after_time n_time trace] in Hn3, Ht3;
    [|exists (evs3 ++ evs1); cbn [fst snd]; rewrite Ht3, Ht1, <- app_assoc;
      (split; [reflexivity|]); apply accounting_before_report;
      rewrite count_app; lia ..].
  unfold bind at 1. rewrite time_time_eq. cbn beta iota zeta.
  unfold bind at 1. rewrite log_eq. cbn beta iota.
  assert (n_time st3 = (n_time st + 1)%nat) as Hn3' by lia.
  assert (n_time st1 = n_time st) as Hn1' by lia.
  rewrite Hn3', Hn1'.
  set (sent := Log Info (MsgSent (c0 + 1) topic
                           (clock w (n_time st + 1) - clock w (n_time st)) x)).
  set (st5 := after_events [sent] (after_time st3)).
  assert (trace st5 = [sent] ++ (evs3 ++ evs1) ++ trace st) as Ht5.
  { unfold st5. simpl. rewrite Ht3, Ht1, <- app_assoc. reflexivity. }
  assert (count is_send_call (evs3 ++ evs1) = 1%nat
          /\ count is_sent_report (evs3 ++ evs1) = O
          /\ count is_sleep (evs3 ++ evs1) = O) as (P1 & P2 & P3)
    by (rewrite !count_app; lia).
  unfold bind at 1.
  destruct (throughput_accounting (c0 + 1) (clock w (n_time st + 1) - start_time) st5)
    as (evs6 & Ht6 & Hn6 & C1 & C2 & C3).
  cbn zeta in Ht6, Hn6.
  match goal with
  | |- context [match ?r st5 with _ => _ end] => destruct (r st5) as [[[]| |] st6]
  end;
    cbn [fst snd] in Hn6, Ht6;
    [|exists ([] ++ evs6 ++ [sent] ++ evs3 ++ evs1); cbn [fst snd];
      rewrite Ht6, Ht5; (split; [app_norm|]);
      apply accounting_after_report; auto; lia ..].
  unfold bind at 1.
  destruct (sleep_accounting w interval_secs st6)
    as (evs7 & Ht7 & Hn7 & D1 & D2 & D3 & D4).
  destruct (time_sleep w interval_secs st6) as [[[]| |] st7];
    cbn [fst snd] in Hn7, Ht7, D4;
    [|exists ([] ++ (evs7 ++ evs6) ++ [sent] ++ evs3 ++ evs1); cbn [fst snd];
      rewrite Ht7, Ht6, Ht5;
      (split; [app_norm|]);
      apply accounting_after_report; auto; rewrite ?count_app; lia ..].
  destruct (IH g' (c0 + 1) st7) as (evs8 & Ht8 & Hp8).
  assert (n_time st7 = (n_time st + 2)%nat) as Hn7'.
  { rewrite Hn7, Hn6. unfold st5. simpl. lia. }
  rewrite Hn7' in Hp8.
  exists (evs8 ++ (evs7 ++ evs6) ++ [sent] ++ evs3 ++ evs1).
  rewrite Ht8, Ht7, Ht6, Ht5.
  split; [app_norm|].
  apply accounting_after_report; auto; rewrite ?count_app; try lia.
  right. split; [rewrite ?count_app, (D4 eq_refl); lia | exact Hp8].
Qed.

Lemma run_accounting (w : world) (fuel : nat) (topic : string) (interval_secs : Z) :
  reaches_streaming w topic interval_secs ->
  exists (shutdown evs : list event),
    trace (snd (run w fuel))
    = shutdown ++ evs ++ trace (streaming_state topic interval_secs)
    /\ count is_send_call shutdown = O /\ count is_sent_report shutdown = O
    /\ count is_sleep shutdown = O
    /\ accounting_ok w topic 1 0 evs.
Proof.
  intros Hstart.
  rewrite (main_reaches_streaming w fuel topic interval_secs Hstart), stream_cases.
  destruct (for_messages_accounting w fuel the_producer topic interval_secs
              (clock w 0) fuel new_generator 0
              (streaming_state topic interval_secs))
    as (evs & Ht & Hp).
  destruct (for_messages w fuel fuel the_producer topic interval_secs (clock w 0)
              new_generator 0 (streaming_state topic interval_secs))
    as [[[]|e|] st1]; cbn [snd] in Ht.
  - eexists _, evs. cbn [snd after_events trace]. rewrite Ht.
    repeat (split; [reflexivity|]). exact Hp.
  - destruct (isinstance e KeyboardInterrupt);
      [|destruct (isinstance e Exception)];
      eexists _, evs; cbn [snd after_events trace]; rewrite Ht;
      repeat (split; [reflexivity|]); exact Hp.
  - exists [], evs. cbn [snd]. rewrite Ht.
    repeat (split; [reflexivity|]). exact Hp.
Qed.

(** X17.  The latency of a message is measured around its send alone.
    In a run that reached the loop, every report of a sent message has a
    positive count [c] and the topic of the run, and its latency is the
    difference of the clock readings number [2c] and [2c - 1], the two
    that are taken right after and right before the send of message [c]:
    the sleeps and the passes of the generator are not in it. *)
Theorem latency_is_measured_around_the_send (w : world) (fuel : nat)
  (topic : string) (interval_secs : Z) :
  reaches_streaming w topic interval_secs ->
  forall lvl c t lat m,
    In (Log lvl (MsgSent c t lat m)) (events (snd (run w fuel))) ->
    0 < c /\ lvl = Info /\ t = topic
    /\ lat = (clock w (2 * Z.to_nat c) - clock w (2 * Z.to_nat c - 1))%Q.
Proof.
  intros Hstart lvl c t lat m Hin.
  destruct (run_accounting w fuel topic interval_secs Hstart)
    as (shutdown & evs & Ht & _ & Hsh & _ & Hsent & _).
  unfold events in Hin. rewrite <- in_rev, Ht in Hin.
  apply in_app_or in Hin as [Hin|Hin];
    [exfalso; exact (no_report_in _ _ _ _ _ _ Hsh Hin)|].
  apply in_app_or in Hin as [Hin|Hin].
  - destruct (Hsent _ _ _ _ _ Hin) as (H1 & H2 & H3 & H4).
    repeat split; auto. rewrite H4. rewrite Z.sub_0_r.
    do 2 f_equal; lia.
  - simpl in Hin. destruct Hin as [H|[H|[H|[H|[]]]]]; discriminate.
Qed.

Lemma latency_is_measured_around_the_send_witness :
  0 < 1 /\ Info = Info /\ "unknown_topic" = "unknown_topic"
  /\ (clock sample_world 2 - clock sample_world 1)%Q
     = (clock sample_world (2 * Z.to_nat 1) - clock sample_world (2 * Z.to_nat 1 - 1))%Q.
Proof.
  refine (latency_is_measured_around_the_send sample_world 5 "unknown_topic" 0 _
            Info 1 "unknown_topic" (clock sample_world 2 - clock sample_world 1)%Q
            (record 1) _).
  - repeat split.
  - vm_compute. do 7 right. left. reflexivity.
Defined.

(** X18.  The loop paces itself, whatever happens.  In every run that
    reached the loop, at every moment, the sleeps are not more than the
    messages reported, the messages reported not more than the calls of
    [send], and the calls of [send] at most one more than the sleeps:
    there is no second send without a sleep after the first, and no sleep
    without a message sent and reported before it. *)
Theorem the_loop_paces_itself (w : world) (fuel : nat) (topic : string)
  (interval_secs : Z) :
  reaches_streaming w topic interval_secs ->
  let evs := events (snd (run w fuel)) in
  (count is_sleep evs <= count is_sent_report evs)%nat
  /\ (count is_sent_report evs <= count is_send_call evs)%nat
  /\ (count is_send_call evs <= count is_sleep evs + 1)%nat.
Proof.
  intros Hstart evs. subst evs.
  destruct (run_accounting w fuel topic interval_secs Hstart)
    as (shutdown & evs & Ht & S1 & S2 & S3 & _ & A1 & A2 & A3).
  unfold events. rewrite !count_rev, Ht, !count_app, S1, S2, S3. simpl. lia.
Qed.

Lemma the_loop_paces_itself_witness :
  (count is_send_call (events (snd (run refused_world 10)))
   <= count is_sleep (events (snd (run refused_world 10))) + 1)%nat.
Proof.
  refine (proj2 (proj2 (the_loop_paces_itself refused_world 10 "unknown_topic" 0 _))).
  repeat split.
Defined.
